(** * Clarity backend: the transaction repository and the dashboard aggregations

    A shallow embedding of [app/database.py], [app/schemas.py], [app/crud.py]
    and the endpoints of [app/main.py].

    Conventions of the embedding.
    - A storage session is the pair of its two tables, each a list of rows in
      rowid order; a function that commits returns the new session.
    - A Python [float] is an IEEE 754 binary64 number, a primitive float of
      Rocq: sums, differences, products and quotients round as the hardware
      does, and there are infinities, a NaN and two zeros.  The [int] 0 that
      starts a Python sum is read as the float 0.0, to which Python converts
      it before it adds, subtracts or compares.
    - A Python [int] is an integer without bound ([Z]); SQLite binds one as a
      64-bit integer and refuses any other.
    - A naive [datetime] is a point of the proleptic Gregorian time line,
      counted in microseconds from 0001-01-01T00:00:00.
    - An exception that escapes a function is a [Py.Raise] result.
    - The clock ([datetime.utcnow()]) and the salt drawn by the password
      hasher are explicit arguments.
    - What the sources leave to the interpreter and the C library (the
      algorithm of [sum], the rendering of [%Y]) is the class [Interpreter];
      what they leave to the storage engine (the algorithm of the aggregate
      [sum], the order in which a grouped query visits the rows) is the
      class [Engine].  The worked store comes with CPython 3.11 over glibc
      and SQLite 3.40 as instances. *)

From Stdlib Require Import Ascii QArith Qround Qabs Floats.
From stdpp Require Import base decidable option list gmap strings sorting.

#[local] Set Warnings "-inexact-float".
Local Open Scope Z_scope.

(** ** Python builtins *)

Module Py.

Inductive exn : Set :=
| IntegrityError
| OverflowError
| ZeroDivisionError.

Inductive result (A : Type) : Type :=
| Ok (a : A)
| Raise (e : exn).
Global Arguments Ok {A} a.
Global Arguments Raise {A} e.

Global Instance result_ret : MRet result := λ A a, Ok a.
Global Instance result_bind : MBind result := λ A B f m,
  match m with
  | Ok a => f a
  | Raise e => Raise e
  end.

(** Truth value of an [Optional[str]]: [None] and [""] are false. *)
Definition truthy (s : option string) : bool :=
  match s with
  | None => false
  | Some s => negb (String.eqb s "")
  end.

(** [x != x]: the test for NaN. *)
Definition is_nan (x : float) : bool := negb (PrimFloat.eqb x x).

(** [a > b] on floats: false when either is NaN. *)
Definition gt (a b : float) : bool := PrimFloat.ltb b a.

(** [a / b]: true division, which raises on a zero divisor. *)
Definition truediv (a b : float) : result float :=
  if PrimFloat.eqb b 0 then Raise ZeroDivisionError
  else Ok (PrimFloat.div a b).

(** The number a finite float stands for. *)
Definition float_Q (x : float) : option Q :=
  match Prim2SF x with
  | S754_zero _ => Some 0%Q
  | S754_finite s m e =>
      Some ((if s then -1 else 1) * inject_Z (Z.pos m) * Qpower 2 e)%Q
  | _ => None
  end.

(** Rounding to the nearest integer, ties to the even one. *)
Definition round_half_even (x : Q) : Z :=
  let f := Qfloor x in
  match (x - inject_Z f ?= 1 # 2)%Q with
  | Lt => f
  | Gt => f + 1
  | Eq => if Z.even f then f else f + 1
  end.

(** [round(x, 2)]: the float nearest to the number that [x] stands for,
    rounded to two decimals, ties to even; an infinity, a NaN and a zero are
    returned as they are, and a result of zero keeps the sign of [x]. *)
Definition round2 (x : float) : float :=
  match Prim2SF x with
  | S754_finite s m e =>
      let hundredths :=
        round_half_even (inject_Z (Z.pos m) * Qpower 2 e * 100)%Q in
      match hundredths with
      | Z.pos n =>
          SF2Prim (SFdiv prec emax (S754_finite s n 0)
                         (S754_finite false 100 0))
      | _ => SF2Prim (S754_zero s)
      end
  | _ => x
  end.

(** [sorted(d.items())] for a dict with [str] keys: the keys are distinct,
    so the order of two items is the order of their keys. *)
Definition item_le {V} (a b : string * V) : Prop := String.le a.1 b.1.

Global Instance item_le_dec {V} : RelDecision (@item_le V).
Proof. intros a b; unfold item_le; apply _. Defined.

Definition sorted_items {V} (d : gmap string V) : list (string * V) :=
  merge_sort item_le (map_to_list d).

End Py.

(** ** The interpreter *)

(** What the sources take from the interpreter and from the C library under
    it, and what differs between their versions.
    - [sum] of a list of floats: CPython up to 3.11 adds from left to right,
      CPython 3.12 and later carry a compensation term along; every version
      gives 0 on no numbers.
    - [%Y] of [strftime] is the C library's: glibc writes the year as it is,
      other libraries pad it to four digits. *)
Class Interpreter : Type := mkInterpreter {
  py_sum : list float → float;
  strftime_Y : Z → string;
  py_sum_nil : py_sum [] = 0%float
}.

(** ** [datetime] *)

Module datetime.

  (** Microseconds since 0001-01-01T00:00:00. *)
Definition t : Set := Z.

Definition us_per_day : Z := 86400000000.

  (** [datetime.max] is 9999-12-31T23:59:59.999999. *)
Definition max_ordinal : Z := 3652059.
Definition representable (d : Z) : bool :=
    bool_decide (0 ≤ d < max_ordinal * us_per_day).

Definition days_before_month (month : Z) : Z :=
    match month with
    | 1 => 0 | 2 => 31 | 3 => 59 | 4 => 90 | 5 => 120 | 6 => 151
    | 7 => 181 | 8 => 212 | 9 => 243 | 10 => 273 | 11 => 304 | 12 => 334
    | _ => -1
    end.

Definition days_in_month (month : Z) : Z :=
    match month with
    | 2 => 28
    | 4 | 6 | 9 | 11 => 30
    | _ => 31
    end.

Definition is_leap (year : Z) : bool :=
    bool_decide (year mod 4 = 0) &&
    (negb (bool_decide (year mod 100 = 0)) || bool_decide (year mod 400 = 0)).

Definition b2z (b : bool) : Z := if b then 1 else 0.

  (** Days from 0001-01-01 to the given date ([toordinal() - 1]). *)
Definition ymd2ord (year month day : Z) : Z :=
    let y := year - 1 in
    y * 365 + y / 4 - y / 100 + y / 400
    + days_before_month month
    + b2z (bool_decide (2 < month) && is_leap year)
    + day - 1.

  (** The date at [n] days from 0001-01-01 ([date.fromordinal(n + 1)]). *)
Definition ord2ymd (n : Z) : Z * Z * Z :=
    let n400 := n / 146097 in
    let n := n mod 146097 in
    let n100 := n / 36524 in
    let n := n mod 36524 in
    let n4 := n / 1461 in
    let n := n mod 1461 in
    let n1 := n / 365 in
    let n := n mod 365 in
    let year := n400 * 400 + 1 + n100 * 100 + n4 * 4 + n1 in
    if bool_decide (n1 = 4) || bool_decide (n100 = 4) then (year - 1, 12, 31)
    else
      let leapyear :=
        bool_decide (n1 = 3) &&
        (negb (bool_decide (n4 = 24)) || bool_decide (n100 = 3)) in
      let month := Z.shiftr (n + 50) 5 in
      let preceding :=
        days_before_month month + b2z (bool_decide (2 < month) && leapyear) in
      if bool_decide (n < preceding) then
        let month := month - 1 in
        let preceding :=
          preceding
          - (days_in_month month + b2z (bool_decide (month = 2) && leapyear)) in
        (year, month, n - preceding + 1)
      else (year, month, n - preceding + 1).

  (** [datetime(year, month, day, hour, minute, second)]. *)
Definition make (year month day hour minute second : Z) : t :=
    ymd2ord year month day * us_per_day
    + ((hour * 60 + minute) * 60 + second) * 1000000.

Definition digit (n : Z) : ascii := ascii_of_nat (48 + Z.to_nat (n mod 10)).

  (** [d.strftime("%Y-%m")]: the year as the C library writes it, the month
      on two digits. *)
Definition strftime_Ym `{Interpreter} (d : t) : string :=
    let '(year, month, _) := ord2ymd (d / us_per_day) in
    strftime_Y year
    +:+ String "-" (String (digit (month / 10)) (String (digit month) "")).

  (** [timedelta(days=n)], in microseconds. *)
Definition timedelta_days (days : Z) : Py.result Z :=
    if bool_decide (-999999999 ≤ days ≤ 999999999)
    then Py.Ok (days * us_per_day)
    else Py.Raise Py.OverflowError.

  (** [d - delta]. *)
Definition sub (d : t) (delta : Z) : Py.result t :=
    if representable (d - delta)
    then Py.Ok (d - delta)
    else Py.Raise Py.OverflowError.

  (** Order of a nullable DateTime column: NULL sorts before every value. *)
Definition le (a b : option t) : Prop :=
    match a, b with
    | None, _ => True
    | Some _, None => False
    | Some x, Some y => x ≤ y
    end.

Global Instance le_dec : RelDecision le.
Proof. intros [x|] [y|]; simpl; apply _. Defined.

End datetime.

(** ** [app/database.py] *)

Module User.
Record t : Set := mk {
    id : Z;
    email : string;
    hashed_password : string;
    full_name : string;
    is_active : bool;
    created_at : datetime.t
  }.
End User.

Module Transaction.
Record t : Set := mk {
    id : Z;
    amount : float;                  (* nullable=False *)
    category : string;               (* nullable=False *)
    description : option string;
    transaction_type : string;       (* nullable=False; 'income' or 'expense' *)
    date : option datetime.t;        (* nullable: an update may set null *)
    created_at : datetime.t;
    user_id : Z
  }.
End Transaction.

(** The state seen through a [Session]: the two tables, rows in rowid order. *)
Record Session : Set := mkSession {
  users : list User.t;
  transactions : list Transaction.t
}.

Definition empty_db : Session := mkSession [] [].

(** An [Integer] primary key is the rowid: one more than the largest in use. *)
Definition next_id (ids : list Z) : Z := 1 + foldr Z.max 0 ids.

(** ** [app/schemas.py] *)

Module schemas.

Record UserCreate : Set := mkUserCreate {
    uc_email : string;
    uc_full_name : string;
    uc_password : string
  }.

Record TransactionCreate : Set := mkTransactionCreate {
    tc_amount : float;
    tc_category : string;
    tc_description : option string;
    tc_transaction_type : string;
    tc_date : datetime.t
  }.

  (** Each field of a [TransactionUpdate] is unset ([None]), set to null
      ([Some None]) or set to a value; [model_dump(exclude_unset=True)] keeps
      the fields that are set. *)
Record TransactionUpdate : Set := mkTransactionUpdate {
    tu_amount : option (option float);
    tu_category : option (option string);
    tu_description : option (option string);
    tu_transaction_type : option (option string);
    tu_date : option (option datetime.t)
  }.

Definition empty_update : TransactionUpdate :=
    mkTransactionUpdate None None None None None.

Record DashboardStats : Set := mkDashboardStats {
    total_income : float;
    total_expenses : float;
    balance : float;
    transaction_count : nat
  }.

Record CategoryBreakdown : Set := mkCategoryBreakdown {
    cb_category : string;
    cb_total : float;
    cb_percentage : float
  }.

Record MonthlyData : Set := mkMonthlyData {
    month : string;
    income : float;
    expenses : float
  }.

End schemas.

(** ** [app/auth.py]: the credential service *)

(** Modelled from the spec: [app/auth.py] is not among the sources.  Section
    4.1 of the specification gives its operations: [hash(password)] (salted;
    the salt is the first argument here), [verify(password, hash)] and
    [issue_token(identity, ttl)]. *)
Class Auth : Type := mkAuth {
  get_password_hash : string → string → string;
  verify_password : string → string → bool;
  create_access_token : string → string
}.

(** Modelled from the spec: the contract of the absent hasher, as the
    testable properties of section 8 use it: [verify] accepts the password
    that was hashed, and no other. *)
Class AuthSpec (auth : Auth) : Prop := {
  verify_password_hash : ∀ salt password candidate,
    verify_password candidate (get_password_hash salt password) = true
    ↔ candidate = password
}.

(** ** The storage engine *)

(** What the sources take from SQLite and the standard does not fix: the
    algorithm of the aggregate [sum] over floats, which differs between its
    versions, and the order in which a grouped query visits the rows it
    selects. *)
Class Engine : Type := mkEngine {
  sql_sum : list float → float;
  sql_scan : list Transaction.t → list Transaction.t;
  sql_scan_Permutation : ∀ rows, sql_scan rows ≡ₚ rows
}.

(** An [int] bound to a statement: SQLite takes a 64-bit integer, and the
    driver raises on any other. *)
Definition sql_integer (n : Z) : Py.result Z :=
  if decide (- 2 ^ 63 ≤ n < 2 ^ 63) then Py.Ok n
  else Py.Raise Py.OverflowError.

(** A float as a REAL column holds it: -0.0 comes back as 0.0. *)
Definition sql_held (x : float) : float :=
  if PrimFloat.eqb x 0 then 0%float else x.

(** A float bound to a REAL column: NaN is bound as NULL. *)
Definition sql_real (x : float) : option float :=
  if Py.is_nan x then None else Some (sql_held x).

(** [column >= bound] and [column <= bound]: false on NULL. *)
Definition sql_ge (column : option datetime.t) (bound : datetime.t) : Prop :=
  match column with
  | Some d => bound ≤ d
  | None => False
  end.

Definition sql_le (column : option datetime.t) (bound : datetime.t) : Prop :=
  match column with
  | Some d => d ≤ bound
  | None => False
  end.

Global Instance sql_ge_dec : RelDecision sql_ge.
Proof. intros [d|] b; simpl; apply _. Defined.

Global Instance sql_le_dec : RelDecision sql_le.
Proof. intros [d|] b; simpl; apply _. Defined.

(** [ORDER BY date DESC]. *)
Definition date_desc (a b : Transaction.t) : Prop :=
  datetime.le (Transaction.date b) (Transaction.date a).

Global Instance date_desc_dec : RelDecision date_desc.
Proof. intros a b; unfold date_desc; apply _. Defined.

(** [OFFSET n] (a negative offset skips nothing) and [LIMIT n] (a negative
    limit is no limit), as SQLite evaluates them on the 64-bit integers that
    it was bound. *)
Definition sql_offset {A} (n : Z) (rows : list A) : list A :=
  drop (Z.to_nat n) rows.

Definition sql_limit {A} (n : Z) (rows : list A) : list A :=
  if decide (n < 0) then rows else take (Z.to_nat n) rows.

(** [SELECT category, sum(amount) ... GROUP BY category]: one row per
    category, with the engine's sum of the amounts of the rows of the
    category, in the order in which the query visits them. *)
Definition group_by_category `{Engine} (rows : list Transaction.t)
    : list (string * float) :=
  let visited := sql_scan rows in
  (λ c,
     (c, sql_sum (Transaction.amount <$>
                  filter (λ t, Transaction.category t = c) visited)))
  <$> remove_dups (Transaction.category <$> visited).

(** ** [app/crud.py] *)

Module crud.
Section crud.
Context `{auth : Auth} `{interpreter : Interpreter} `{engine : Engine}.

Definition get_user_by_email (db : Session) (email : string) : option User.t :=
  head (filter (λ u, User.email u = email) (users db)).

Definition create_user (db : Session) (user : schemas.UserCreate)
    (now : datetime.t) (salt : string) : Py.result (User.t * Session) :=
  let hashed_password := get_password_hash salt (schemas.uc_password user) in
  let db_user :=
    User.mk (next_id (User.id <$> users db))
            (schemas.uc_email user)
            hashed_password
            (schemas.uc_full_name user)
            true now in
  (* db.commit(): the email column is unique *)
  if decide (schemas.uc_email user ∈ User.email <$> users db)
  then Py.Raise Py.IntegrityError
  else Py.Ok (db_user, mkSession (users db ++ [db_user]) (transactions db)).

(** Returns the user, or [None] where the source returns [False]. *)
Definition authenticate_user (db : Session) (email password : string)
    : option User.t :=
  match get_user_by_email db email with
  | None => None
  | Some user =>
      if negb (verify_password password (User.hashed_password user))
      then None
      else Some user
  end.

(** [db.commit()] refuses an amount that is bound as NULL; [db.refresh]
    reads the row back as the table holds it. *)
Definition create_transaction (db : Session)
    (transaction : schemas.TransactionCreate) (user_id : Z) (now : datetime.t)
    : Py.result (Transaction.t * Session) :=
  match sql_real (schemas.tc_amount transaction) with
  | None => Py.Raise Py.IntegrityError
  | Some amount =>
      let db_transaction :=
        Transaction.mk (next_id (Transaction.id <$> transactions db))
                       amount
                       (schemas.tc_category transaction)
                       (schemas.tc_description transaction)
                       (schemas.tc_transaction_type transaction)
                       (Some (schemas.tc_date transaction))
                       now user_id in
      Py.Ok (db_transaction,
             mkSession (users db) (transactions db ++ [db_transaction]))
  end.

Definition get_transactions (db : Session) (user_id : Z) (skip limit : Z)
    (category transaction_type : option string)
    (start_date end_date : option datetime.t)
    : Py.result (list Transaction.t) :=
  let query :=
    filter (λ t, Transaction.user_id t = user_id) (transactions db) in
  let query :=
    if Py.truthy category
    then filter (λ t, Some (Transaction.category t) = category) query
    else query in
  let query :=
    if Py.truthy transaction_type
    then filter (λ t, Some (Transaction.transaction_type t) = transaction_type)
                query
    else query in
  let query :=
    match start_date with
    | Some start_date =>
        filter (λ t, sql_ge (Transaction.date t) start_date) query
    | None => query
    end in
  let query :=
    match end_date with
    | Some end_date => filter (λ t, sql_le (Transaction.date t) end_date) query
    | None => query
    end in
  (* .all(): the statement is run with its LIMIT and OFFSET bound *)
  limit ← sql_integer limit;
  skip ← sql_integer skip;
  mret (sql_limit limit (sql_offset skip (merge_sort date_desc query))).

Definition get_transaction (db : Session) (transaction_id user_id : Z)
    : option Transaction.t :=
  head (filter (λ t, Transaction.id t = transaction_id
                     ∧ Transaction.user_id t = user_id)
               (transactions db)).

(** [setattr] on a column followed by [commit] and [refresh]: a NOT NULL
    column refuses null, a nullable one takes it; the amount is a REAL
    column. *)
Definition set_not_null {A} (old : A) (new : option (option A))
    : Py.result A :=
  match new with
  | None => Py.Ok old
  | Some (Some v) => Py.Ok v
  | Some None => Py.Raise Py.IntegrityError
  end.

Definition set_real_not_null (old : float) (new : option (option float))
    : Py.result float :=
  match new with
  | None => Py.Ok old
  | Some (Some v) =>
      match sql_real v with
      | Some v => Py.Ok v
      | None => Py.Raise Py.IntegrityError
      end
  | Some None => Py.Raise Py.IntegrityError
  end.

Definition set_nullable {A} (old : option A) (new : option (option A))
    : option A :=
  match new with
  | None => old
  | Some v => v
  end.

Definition update_transaction (db : Session) (transaction_id : Z)
    (transaction_update : schemas.TransactionUpdate) (user_id : Z)
    : Py.result (option Transaction.t * Session) :=
  match get_transaction db transaction_id user_id with
  | None => Py.Ok (None, db)
  | Some db_transaction =>
      amount ← set_real_not_null (Transaction.amount db_transaction)
                                 (schemas.tu_amount transaction_update);
      category ← set_not_null (Transaction.category db_transaction)
                              (schemas.tu_category transaction_update);
      transaction_type ←
        set_not_null (Transaction.transaction_type db_transaction)
                     (schemas.tu_transaction_type transaction_update);
      let db_transaction' :=
        Transaction.mk (Transaction.id db_transaction)
                       amount category
                       (set_nullable
                          (Transaction.description db_transaction)
                          (schemas.tu_description transaction_update))
                       transaction_type
                       (set_nullable (Transaction.date db_transaction)
                                     (schemas.tu_date transaction_update))
                       (Transaction.created_at db_transaction)
                       (Transaction.user_id db_transaction) in
      Py.Ok (Some db_transaction',
             mkSession (users db)
               ((λ t,
                   if decide (Transaction.id t = Transaction.id db_transaction)
                   then db_transaction' else t) <$> transactions db))
  end.

Definition delete_transaction (db : Session) (transaction_id user_id : Z)
    : option Transaction.t * Session :=
  match get_transaction db transaction_id user_id with
  | None => (None, db)
  | Some db_transaction =>
      (Some db_transaction,
       mkSession (users db)
         (filter (λ t, Transaction.id t ≠ Transaction.id db_transaction)
                 (transactions db)))
  end.

Definition get_dashboard_stats (db : Session) (user_id : Z)
    : schemas.DashboardStats :=
  let transactions :=
    filter (λ t, Transaction.user_id t = user_id) (transactions db) in
  let total_income :=
    py_sum (Transaction.amount <$>
            filter (λ t, Transaction.transaction_type t = "income")
                   transactions) in
  let total_expenses :=
    py_sum (Transaction.amount <$>
            filter (λ t, Transaction.transaction_type t = "expense")
                   transactions) in
  schemas.mkDashboardStats total_income total_expenses
                           (total_income - total_expenses)%float
                           (length transactions).

Definition get_category_breakdown (db : Session) (user_id : Z)
    (transaction_type : string) : Py.result (list schemas.CategoryBreakdown) :=
  let results :=
    group_by_category
      (filter (λ t, Transaction.user_id t = user_id
                    ∧ Transaction.transaction_type t = transaction_type)
              (transactions db)) in
  let total := py_sum (snd <$> results) in
  mapM (λ r : string * float,
          percentage ←
            (if Py.gt total 0
             then q ← Py.truediv r.2 total; mret (Py.round2 (q * 100))
             else mret 0%float);
          mret (schemas.mkCategoryBreakdown r.1 r.2 percentage))
       results.

(** One turn of the loop over the fetched rows; a fetched row has a date. *)
Definition monthly_step (monthly_data : gmap string (float * float))
    (t : Transaction.t) : gmap string (float * float) :=
  match Transaction.date t with
  | None => monthly_data
  | Some date =>
      let month_key := datetime.strftime_Ym date in
      let monthly_data :=
        if decide (is_Some (monthly_data !! month_key))
        then monthly_data
        else <[month_key := (0, 0)%float]> monthly_data in
      if decide (Transaction.transaction_type t = "income")
      then alter (λ d, (d.1 + Transaction.amount t, d.2)%float)
                 month_key monthly_data
      else alter (λ d, (d.1, d.2 + Transaction.amount t)%float)
                 month_key monthly_data
  end.

Definition get_monthly_summary (db : Session) (user_id : Z) (months : Z)
    (now : datetime.t) : Py.result (list schemas.MonthlyData) :=
  let end_date := now in
  delta ← datetime.timedelta_days (30 * months);
  start_date ← datetime.sub end_date delta;
  let transactions :=
    filter (λ t, Transaction.user_id t = user_id
                 ∧ sql_ge (Transaction.date t) start_date
                 ∧ sql_le (Transaction.date t) end_date)
           (transactions db) in
  let monthly_data := foldl monthly_step ∅ transactions in
  mret ((λ item : string * (float * float),
           schemas.mkMonthlyData item.1 item.2.1 item.2.2)
        <$> Py.sorted_items monthly_data).

End crud.
End crud.

(** ** [app/main.py]: the endpoints *)

(** What a handler produces: its return value, an [HTTPException], or an
    exception nobody catches (the server answers 500). *)
Inductive response (A : Type) : Type :=
| Return (body : A)
| HTTPException (status_code : Z) (detail : string)
| Unhandled (e : Py.exn).
Global Arguments Return {A} body.
Global Arguments HTTPException {A} status_code detail.
Global Arguments Unhandled {A} e.

Definition status_of {A} (r : response A) : Z :=
  match r with
  | Return _ => 200
  | HTTPException status_code _ => status_code
  | Unhandled _ => 500
  end.

Module main.
Section main.
Context `{auth : Auth} `{interpreter : Interpreter} `{engine : Engine}.

Definition signup (db : Session) (user : schemas.UserCreate)
    (now : datetime.t) (salt : string) : response User.t * Session :=
  match crud.get_user_by_email db (schemas.uc_email user) with
  | Some _ => (HTTPException 400 "Email already registered", db)
  | None =>
      match crud.create_user db user now salt with
      | Py.Ok (db_user, db') => (Return db_user, db')
      | Py.Raise e => (Unhandled e, db)
      end
  end.

(** The body of a successful login is the access token. *)
Definition login (db : Session) (username password : string)
    : response string :=
  match crud.authenticate_user db username password with
  | None => HTTPException 401 "Incorrect email or password"
  | Some user => Return (create_access_token (User.email user))
  end.

Definition create_transaction (db : Session)
    (transaction : schemas.TransactionCreate) (current_user : User.t)
    (now : datetime.t) : response Transaction.t * Session :=
  match crud.create_transaction db transaction (User.id current_user) now with
  | Py.Ok (db_transaction, db') => (Return db_transaction, db')
  | Py.Raise e => (Unhandled e, db)
  end.

(** A query parameter the caller leaves out takes its default. *)
Definition read_transactions (db : Session) (skip limit : option Z)
    (category transaction_type : option string)
    (start_date end_date : option datetime.t) (current_user : User.t)
    : response (list Transaction.t) :=
  match crud.get_transactions db (User.id current_user)
          (default 0 skip) (default 100 limit)
          category transaction_type start_date end_date with
  | Py.Ok transactions => Return transactions
  | Py.Raise e => Unhandled e
  end.

Definition read_transaction (db : Session) (transaction_id : Z)
    (current_user : User.t) : response Transaction.t :=
  match crud.get_transaction db transaction_id (User.id current_user) with
  | None => HTTPException 404 "Transaction not found"
  | Some transaction => Return transaction
  end.

Definition update_transaction (db : Session) (transaction_id : Z)
    (transaction : schemas.TransactionUpdate) (current_user : User.t)
    : response Transaction.t * Session :=
  match crud.update_transaction db transaction_id transaction
                                (User.id current_user) with
  | Py.Raise e => (Unhandled e, db)
  | Py.Ok (None, db') => (HTTPException 404 "Transaction not found", db')
  | Py.Ok (Some db_transaction, db') => (Return db_transaction, db')
  end.

Definition delete_transaction (db : Session) (transaction_id : Z)
    (current_user : User.t) : response string * Session :=
  match crud.delete_transaction db transaction_id (User.id current_user) with
  | (None, db') => (HTTPException 404 "Transaction not found", db')
  | (Some _, db') => (Return "Transaction deleted successfully", db')
  end.

Definition get_dashboard_stats (db : Session) (current_user : User.t)
    : response schemas.DashboardStats :=
  Return (crud.get_dashboard_stats db (User.id current_user)).

Definition get_category_breakdown (db : Session) (transaction_type : string)
    (current_user : User.t) : response (list schemas.CategoryBreakdown) :=
  match crud.get_category_breakdown db (User.id current_user)
                                    transaction_type with
  | Py.Ok breakdown => Return breakdown
  | Py.Raise e => Unhandled e
  end.

Definition get_monthly_summary (db : Session) (months : option Z)
    (current_user : User.t) (now : datetime.t)
    : response (list schemas.MonthlyData) :=
  match crud.get_monthly_summary db (User.id current_user)
                                 (default 6 months) now with
  | Py.Ok summary => Return summary
  | Py.Raise e => Unhandled e
  end.

(** The dependency that resolves a bearer token to a user.  [decode_token]
    belongs to [app/auth.py], which is not among the sources, and is a
    parameter: it gives the email of a token it accepts and [None] for any
    other. *)
Definition get_current_user (decode_token : string → option string)
    (db : Session) (token : string) : response User.t :=
  match decode_token token with
  | None => HTTPException 401 "Could not validate credentials"
  | Some email =>
      match crud.get_user_by_email db email with
      | None => HTTPException 401 "Could not validate credentials"
      | Some user => Return user
      end
  end.

(** [distinct()] keeps one row per category, in an order the query does not
    fix; the comprehension drops the empty label. *)
Definition get_categories (db : Session) (current_user : User.t)
    : response (list string) :=
  let categories :=
    remove_dups
      (Transaction.category <$>
       filter (λ t, Transaction.user_id t = User.id current_user)
              (transactions db)) in
  Return (filter (λ cat, negb (String.eqb cat "")) categories).

End main.
End main.

(** ** Vocabulary of the specification *)

(** The primary key of the transactions table: no two rows share an id. *)
Definition primary_key (db : Session) : Prop :=
  NoDup (Transaction.id <$> transactions db).

(** The rows a user owns. *)
Definition owned_by (user_id : Z) (db : Session) : list Transaction.t :=
  filter (λ t, Transaction.user_id t = user_id) (transactions db).

(** The rows a user owns that are of a given type. *)
Definition owned_of_type (user_id : Z) (ty : string) (db : Session)
    : list Transaction.t :=
  filter (λ t, Transaction.user_id t = user_id
               ∧ Transaction.transaction_type t = ty)
         (transactions db).

(** The amounts of some rows, in the order of the rows. *)
Definition amounts (rows : list Transaction.t) : list float :=
  Transaction.amount <$> rows.

(** The sum of some floats as a loop takes it: from 0, adding one after the
    other, each addition rounded. *)
Definition running_sum (xs : list float) : float :=
  foldl PrimFloat.add 0%float xs.

(** The rows of a given type, and of any other type. *)
Definition of_type (ty : string) (rows : list Transaction.t)
    : list Transaction.t :=
  filter (λ t, Transaction.transaction_type t = ty) rows.

Definition not_of_type (ty : string) (rows : list Transaction.t)
    : list Transaction.t :=
  filter (λ t, Transaction.transaction_type t ≠ ty) rows.

Definition of_category (c : string) (rows : list Transaction.t)
    : list Transaction.t :=
  filter (λ t, Transaction.category t = c) rows.

(** The session once the row of a given transaction is gone from the table. *)
Definition without (t : Transaction.t) (db : Session) : Session :=
  mkSession (users db)
    (filter (λ r, Transaction.id r ≠ Transaction.id t) (transactions db)).

(** A filter the caller supplies constrains the row; one left out does not. *)
Definition supplied {A} (f : option A) (P : A → Prop) : Prop :=
  match f with
  | Some x => P x
  | None => True
  end.

Global Instance supplied_dec {A} (f : option A) (P : A → Prop)
  `{∀ x, Decision (P x)} : Decision (supplied f P).
Proof. destruct f; simpl; apply _. Defined.

(** The occurrence date lies at or after, at or before, a bound. *)
Definition on_or_after (bound : datetime.t) (t : Transaction.t) : Prop :=
  ∃ d, Transaction.date t = Some d ∧ bound ≤ d.

Definition on_or_before (bound : datetime.t) (t : Transaction.t) : Prop :=
  ∃ d, Transaction.date t = Some d ∧ d ≤ bound.

Global Instance on_or_after_dec bound t : Decision (on_or_after bound t).
Proof.
  unfold on_or_after. destruct (Transaction.date t) as [d|].
  - destruct (decide (bound ≤ d));
      [left; eauto|right; intros (? & [= <-] & ?); lia].
  - right. by intros (? & ? & ?).
Defined.

Global Instance on_or_before_dec bound t : Decision (on_or_before bound t).
Proof.
  unfold on_or_before. destruct (Transaction.date t) as [d|].
  - destruct (decide (d ≤ bound));
      [left; eauto|right; intros (? & [= <-] & ?); lia].
  - right. by intros (? & ? & ?).
Defined.

(** A row matches a listing request: it is the owner's and it passes every
    filter of the request. *)
Definition matches (user_id : Z) (category transaction_type : option string)
    (start_date end_date : option datetime.t) (t : Transaction.t) : Prop :=
  Transaction.user_id t = user_id
  ∧ supplied category (λ c, Transaction.category t = c)
  ∧ supplied transaction_type (λ y, Transaction.transaction_type t = y)
  ∧ supplied start_date (λ s, on_or_after s t)
  ∧ supplied end_date (λ e, on_or_before e t).

Global Instance matches_dec u c y s e t : Decision (matches u c y s e t).
Proof. unfold matches. apply _. Defined.

(** A text filter that is the empty string counts as left out. *)
Definition non_empty (f : option string) : option string :=
  match f with
  | Some s => if decide (s = "") then None else Some s
  | None => None
  end.

(** An integer that SQLite takes as a bound parameter. *)
Definition int64 (n : Z) : Prop := - 2 ^ 63 ≤ n < 2 ^ 63.

(** The listing contract: the call returns the rows that match, by
    occurrence date from the latest to the earliest, less the first [skip],
    cut at [limit]. *)
Definition listing (wanted : Transaction.t → Prop)
    `{∀ t, Decision (wanted t)} (db : Session) (skip limit : Z)
    (outcome : Py.result (list Transaction.t)) : Prop :=
  ∃ sorted,
    sorted ≡ₚ filter wanted (transactions db)
    ∧ Sorted date_desc sorted
    ∧ outcome = Py.Ok (take (Z.to_nat limit) (drop (Z.to_nat skip) sorted)).

(** A column after an update, read against the patch: a field that the patch
    sets holds the value of the patch, a field that it leaves out holds the
    old value.  The value of a NOT NULL column [x] is read as [Some x]. *)
Definition patched {A} (old : option A) (field : option (option A))
    (new : option A) : Prop :=
  match field with
  | None => new = old
  | Some v => new = v
  end.

(** The amount of a patch, as the table holds it. *)
Definition held_amount (patch : schemas.TransactionUpdate)
    : option (option float) :=
  match schemas.tu_amount patch with
  | Some (Some x) => Some (Some (sql_held x))
  | field => field
  end.

(** The outcome of updating the stored row [t] with [patch]: the update
    returns a record, which is [t] changed in the fields of the patch and in
    no other, and the table holds that record in the place of [t]. *)
Definition applies_patch (db : Session) (t : Transaction.t)
    (patch : schemas.TransactionUpdate)
    (outcome : Py.result (option Transaction.t * Session)) : Prop :=
  ∃ t' db',
    outcome = Py.Ok (Some t', db')
    ∧ patched (Some (Transaction.amount t)) (held_amount patch)
              (Some (Transaction.amount t'))
    ∧ patched (Some (Transaction.category t)) (schemas.tu_category patch)
              (Some (Transaction.category t'))
    ∧ patched (Transaction.description t) (schemas.tu_description patch)
              (Transaction.description t')
    ∧ patched (Some (Transaction.transaction_type t))
              (schemas.tu_transaction_type patch)
              (Some (Transaction.transaction_type t'))
    ∧ patched (Transaction.date t) (schemas.tu_date patch)
              (Transaction.date t')
    ∧ Transaction.id t' = Transaction.id t
    ∧ Transaction.created_at t' = Transaction.created_at t
    ∧ Transaction.user_id t' = Transaction.user_id t
    ∧ users db' = users db
    ∧ ∃ i, transactions db !! i = Some t
           ∧ transactions db' = <[i := t']> (transactions db).

(** The patch sets no NOT NULL column to null, nor the amount to NaN, which
    the table would hold as null. *)
Definition keeps_not_null (patch : schemas.TransactionUpdate) : Prop :=
  schemas.tu_amount patch ≠ Some None
  ∧ (∀ x, schemas.tu_amount patch = Some (Some x) → Py.is_nan x = false)
  ∧ schemas.tu_category patch ≠ Some None
  ∧ schemas.tu_transaction_type patch ≠ Some None.

(** The sum of a list of numbers. *)
Definition Qsum (xs : list Q) : Q := foldr Qplus 0%Q xs.

(** The category breakdown of the rows of a user and type: the call returns
    (no division fails) one group per category in use; the total of a group
    is the engine's sum of the amounts of its rows, in the order the query
    visited them; the grand total is the interpreter's sum of the totals of
    the groups; the percentage of a group is its total divided by the grand
    total, times 100, rounded to two decimals, and is reported as 0 when the
    grand total is [exceptional]. *)
Definition breakdown `{Interpreter} `{Engine} (exceptional : float → bool)
    (db : Session) (user_id : Z) (ty : string)
    (outcome : Py.result (list schemas.CategoryBreakdown)) : Prop :=
  let rows := of_type ty (owned_by user_id db) in
  ∃ groups,
    outcome = Py.Ok groups
    ∧ NoDup (schemas.cb_category <$> groups)
    ∧ (∀ c, c ∈ schemas.cb_category <$> groups ↔ of_category c rows ≠ [])
    ∧ (∀ g, g ∈ groups →
         ∃ visited,
           visited ≡ₚ of_category (schemas.cb_category g) rows
           ∧ schemas.cb_total g = sql_sum (amounts visited))
    ∧ let grand_total := py_sum (schemas.cb_total <$> groups) in
      ∀ g, g ∈ groups →
        schemas.cb_percentage g
        = if exceptional grand_total then 0%float
          else Py.round2 (schemas.cb_total g / grand_total * 100)%float.



(** The month key of a row: the year and month of its occurrence date. *)
Definition month_of `{Interpreter} (t : Transaction.t) : option string :=
  datetime.strftime_Ym <$> Transaction.date t.

(** The rows of a month. *)
Definition bucket `{Interpreter} (m : string) (rows : list Transaction.t)
    : list Transaction.t :=
  filter (λ t, month_of t = Some m) rows.

(** The occurrence date lies within the [months] × 30 days that end at
    [now], both ends included. *)
Definition in_window (now : datetime.t) (months : Z) (t : Transaction.t)
    : Prop :=
  ∃ d, Transaction.date t = Some d
       ∧ now - 30 * months * datetime.us_per_day ≤ d ≤ now.

Global Instance in_window_dec now months t : Decision (in_window now months t).
Proof.
  unfold in_window. destruct (Transaction.date t) as [d|].
  - destruct (decide (now - 30 * months * datetime.us_per_day ≤ d ≤ now));
      [left; eauto|right; intros (? & [= <-] & ?); done].
  - right. by intros (? & ? & ?).
Defined.

(** The start of the window, [now] less [months] × 30 days, is a datetime:
    the number of days fits a [timedelta] and the instant is not before
    year 1 nor after year 9999. *)
Definition window_representable (now : datetime.t) (months : Z) : Prop :=
  -999999999 ≤ 30 * months ≤ 999999999
  ∧ 0 ≤ now - 30 * months * datetime.us_per_day
      < datetime.max_ordinal * datetime.us_per_day.

(** Every row is of type income or of type expense. *)
Definition typed (rows : list Transaction.t) : Prop :=
  Forall (λ t, Transaction.transaction_type t = "income"
               ∨ Transaction.transaction_type t = "expense") rows.

(** The monthly summary of a user: the call returns, for the user's rows in
    the window, one entry per month that has rows and none for a month that
    has not, in ascending order of the month key, each entry with the
    running sum of the amounts of the income rows of the month and, for a
    month that is [covered], with the running sum of the amounts of its
    expense rows, the rows taken in the order of the table. *)
Definition monthly `{Interpreter} (covered : list Transaction.t → Prop)
    (db : Session) (user_id months : Z) (now : datetime.t)
    (outcome : Py.result (list schemas.MonthlyData)) : Prop :=
  let rows := filter (in_window now months) (owned_by user_id db) in
  ∃ summary,
    outcome = Py.Ok summary
    ∧ Sorted String.le (schemas.month <$> summary)
    ∧ NoDup (schemas.month <$> summary)
    ∧ (∀ m, m ∈ schemas.month <$> summary ↔ bucket m rows ≠ [])
    ∧ ∀ e, e ∈ summary →
        schemas.income e
        = running_sum (amounts (of_type "income" (bucket (schemas.month e) rows)))
        ∧ (covered (bucket (schemas.month e) rows) →
           schemas.expenses e
           = running_sum
               (amounts (of_type "expense" (bucket (schemas.month e) rows)))).

(** What the dict holds after the loop: under the key of a month, the
    running sum of the amounts of its income rows and the running sum of the
    amounts of its other rows; no key for a month without rows. *)
Definition monthly_invariant `{Interpreter} (rows : list Transaction.t)
    (monthly_data : gmap string (float * float)) : Prop :=
  ∀ m,
    match monthly_data !! m with
    | Some d =>
        bucket m rows ≠ []
        ∧ d.1 = running_sum (amounts (of_type "income" (bucket m rows)))
        ∧ d.2 = running_sum (amounts (not_of_type "income" (bucket m rows)))
    | None => bucket m rows = []
    end.

(** A row of a third type: neither income nor expense. *)
Definition third_type (t : Transaction.t) : Prop :=
  Transaction.transaction_type t ≠ "income"
  ∧ Transaction.transaction_type t ≠ "expense".

(** The expenses that the monthly summary reports, added over its months as
    numbers, are the expenses that the dashboard reports. *)
Definition expenses_agree (summary : list schemas.MonthlyData)
    (stats : schemas.DashboardStats) : Prop :=
  ∃ monthly_expenses dashboard_expenses,
    mapM Py.float_Q (schemas.expenses <$> summary) = Some monthly_expenses
    ∧ Py.float_Q (schemas.total_expenses stats) = Some dashboard_expenses
    ∧ (Qsum monthly_expenses == dashboard_expenses)%Q.

(** The last clause of C10: the monthly summary of the user is returned, and
    its expenses and those of the dashboard disagree. *)
Definition reports_disagree `{Interpreter} (db : Session) (user_id months : Z)
    (now : datetime.t) : Prop :=
  ∃ summary,
    crud.get_monthly_summary db user_id months now = Py.Ok summary
    ∧ ¬ expenses_agree summary (crud.get_dashboard_stats db user_id).

(** How the two reports treat the stored row [t] of a third type that lies
    in the window of the monthly summary.
    - The summary has an entry for the month of [t], and the running sum
      that gives its expenses adds the amount of [t] when it reaches [t]
      among the rows of the month that are not income.
    - The dashboard has the totals it has without [t], and counts one row
      more.
    - When [t] is the only row of its owner that is not income, the summary
      reports 0 plus the amount of [t] as the expenses of the month, and the
      dashboard reports no expenses. *)
Definition third_type_treatment `{Interpreter} (db : Session)
    (t : Transaction.t) (months : Z) (now : datetime.t) : Prop :=
  let user_id := Transaction.user_id t in
  let rows := filter (in_window now months) (owned_by user_id db) in
  let stats := crud.get_dashboard_stats db user_id in
  let stats' := crud.get_dashboard_stats (without t db) user_id in
  ∃ summary e,
    crud.get_monthly_summary db user_id months now = Py.Ok summary
    ∧ e ∈ summary
    ∧ month_of t = Some (schemas.month e)
    ∧ (∃ before after,
         not_of_type "income" (bucket (schemas.month e) rows)
         = before ++ t :: after
         ∧ schemas.expenses e
           = foldl PrimFloat.add
               (running_sum (amounts before) + Transaction.amount t)%float
               (amounts after))
    ∧ schemas.total_income stats = schemas.total_income stats'
    ∧ schemas.total_expenses stats = schemas.total_expenses stats'
    ∧ schemas.transaction_count stats = S (schemas.transaction_count stats')
    ∧ (not_of_type "income" (owned_by user_id db) = [t] →
       schemas.expenses e = (0 + Transaction.amount t)%float
       ∧ schemas.total_expenses stats = 0%float).

(** The unique index of the users table: no two users share an email. *)
Definition unique_emails (db : Session) : Prop :=
  NoDup (User.email <$> users db).

(** ** A worked store *)

(** The scenario of section 8 of the specification, with a second user who
    owns one transaction. *)
Module example.

(** A credential service for the examples: it stores the password itself. *)
Definition plain_auth : Auth := mkAuth (λ _ password, password) String.eqb id.

(** The year as glibc writes it, for the years of a [datetime]. *)
Definition year_unpadded (year : Z) : string :=
  let d := datetime.digit in
  if decide (1000 ≤ year)
  then String (d (year / 1000)) (String (d (year / 100))
         (String (d (year / 10)) (String (d year) "")))
  else if decide (100 ≤ year)
  then String (d (year / 100)) (String (d (year / 10)) (String (d year) ""))
  else if decide (10 ≤ year)
  then String (d (year / 10)) (String (d year) "")
  else String (d year) "".

(** CPython 3.11 over glibc: [sum] adds from left to right. *)
Definition cpython : Interpreter :=
  mkInterpreter running_sum year_unpadded eq_refl.

(** SQLite 3.40: a grouped query sorts the rows it selects by the grouping
    column and visits them in that order; [sum] adds from left to right. *)
Definition by_category (a b : Transaction.t) : Prop :=
  String.le (Transaction.category a) (Transaction.category b).

Global Instance by_category_dec : RelDecision by_category.
Proof. intros a b; unfold by_category; apply _. Defined.

Definition sqlite : Engine :=
  mkEngine running_sum (merge_sort by_category)
           (merge_sort_Permutation by_category).

Definition now : datetime.t := datetime.make 2024 2 10 12 0 0.

Definition alice : User.t :=
  User.mk 1 "alice@example.com" "wonderland" "Alice" true now.

Definition bob : User.t :=
  User.mk 2 "bob@example.com" "builder" "Bob" true now.

Definition salary : schemas.TransactionCreate :=
  schemas.mkTransactionCreate 100 "salary" None "income"
                              (datetime.make 2024 1 15 0 0 0).

Definition lunch : schemas.TransactionCreate :=
  schemas.mkTransactionCreate 40 "food" None "expense"
                              (datetime.make 2024 1 20 0 0 0).

Definition dinner : schemas.TransactionCreate :=
  schemas.mkTransactionCreate 60 "food" None "expense"
                              (datetime.make 2024 2 1 0 0 0).

Definition rent : schemas.TransactionCreate :=
  schemas.mkTransactionCreate 700 "rent" (Some "February") "expense"
                              (datetime.make 2024 2 2 0 0 0).

(** The rows that the four requests create: three of Alice, one of Bob. *)
Definition salary_row : Transaction.t :=
  Transaction.mk 1 100 "salary" None "income"
                 (Some (datetime.make 2024 1 15 0 0 0)) now 1.

Definition lunch_row : Transaction.t :=
  Transaction.mk 2 40 "food" None "expense"
                 (Some (datetime.make 2024 1 20 0 0 0)) now 1.

Definition dinner_row : Transaction.t :=
  Transaction.mk 3 60 "food" None "expense"
                 (Some (datetime.make 2024 2 1 0 0 0)) now 1.

Definition rent_row : Transaction.t :=
  Transaction.mk 4 700 "rent" (Some "February") "expense"
                 (Some (datetime.make 2024 2 2 0 0 0)) now 2.

Definition db : Session :=
  mkSession [alice; bob] [salary_row; lunch_row; dinner_row; rent_row].

(** A patch that raises the amount, one that sets the amount to null, and
    one that sets it to NaN. *)
Definition raise_amount : schemas.TransactionUpdate :=
  schemas.mkTransactionUpdate (Some (Some 120%float)) None None None None.

Definition null_amount : schemas.TransactionUpdate :=
  schemas.mkTransactionUpdate (Some None) None None None None.

Definition nan_amount : schemas.TransactionUpdate :=
  schemas.mkTransactionUpdate (Some (Some nan)) None None None None.

(** A store whose only transaction is a refund: an expense of -50. *)
Definition refund_row : Transaction.t :=
  Transaction.mk 1 (-50) "food" (Some "refund") "expense"
                 (Some (datetime.make 2024 2 3 0 0 0)) now 1.

Definition refund_db : Session := mkSession [alice; bob] [refund_row].

(** A store with three expenses of Alice: 0.1, 0.2 and a refund of 0.3. *)
Definition coffee_row : Transaction.t :=
  Transaction.mk 1 0.1 "coffee" None "expense"
                 (Some (datetime.make 2024 2 5 0 0 0)) now 1.

Definition paper_row : Transaction.t :=
  Transaction.mk 2 0.2 "paper" None "expense"
                 (Some (datetime.make 2024 2 6 0 0 0)) now 1.

Definition returned_row : Transaction.t :=
  Transaction.mk 3 (-0.3) "returned" None "expense"
                 (Some (datetime.make 2024 2 7 0 0 0)) now 1.

Definition small_db : Session :=
  mkSession [alice; bob] [coffee_row; paper_row; returned_row].

(** A signup request of a new user. *)
Definition carol : schemas.UserCreate :=
  schemas.mkUserCreate "carol@example.com" "Carol" "secret".

(** A store whose only transaction is of a third type, with amount 0. *)
Definition transfer_row : Transaction.t :=
  Transaction.mk 1 0 "savings" None "transfer"
                 (Some (datetime.make 2024 2 4 0 0 0)) now 1.

Definition transfer_db : Session := mkSession [alice; bob] [transfer_row].

(** The worked store with one more row of Alice, of a third type. *)
Definition transfer25 : schemas.TransactionCreate :=
  schemas.mkTransactionCreate 25 "savings" None "transfer"
                              (datetime.make 2024 2 4 0 0 0).

Definition transfer25_row : Transaction.t :=
  Transaction.mk 5 25 "savings" None "transfer"
                 (Some (datetime.make 2024 2 4 0 0 0)) now 1.

Definition transfer25_db : Session :=
  mkSession [alice; bob]
            [salary_row; lunch_row; dinner_row; rent_row; transfer25_row].

End example.

(** * Properties *)

(** A closed decidable fact, by evaluation. *)
Ltac by_evaluation := apply (bool_decide_unpack _); vm_compute; exact I.

(** Two floats that differ, by evaluation. *)
Ltac by_float_evaluation H :=
  apply (f_equal Prim2SF) in H; vm_compute in H; discriminate H.

(** ** The calendar *)

(** The two conversions agree on the dates at the edges of months, leap years
    and the range of [datetime]. *)
Example ord2ymd_ymd2ord :
  Forall (λ '(y, m, d), datetime.ord2ymd (datetime.ymd2ord y m d) = (y, m, d))
         [(1, 1, 1); (1600, 2, 29); (1900, 2, 28); (1900, 3, 1);
          (2000, 2, 29); (2023, 12, 31); (2024, 1, 1); (2024, 2, 29);
          (2024, 3, 1); (2024, 12, 31); (9999, 12, 31)].
Proof. repeat constructor. Qed.

(** Month keys under glibc: a year before 1000 is written without padding,
    so that the key of June 999 sorts after that of January 1000. *)
Example strftime_Ym_examples :
  let strftime_Ym := @datetime.strftime_Ym example.cpython in
  strftime_Ym (datetime.make 2024 1 15 0 0 0) = "2024-01"
  ∧ strftime_Ym (datetime.make 2024 2 29 23 59 59) = "2024-02"
  ∧ strftime_Ym (datetime.make 1999 12 31 23 59 59) = "1999-12"
  ∧ strftime_Ym (datetime.make 999 6 1 0 0 0) = "999-06"
  ∧ ¬ String.le (strftime_Ym (datetime.make 999 6 1 0 0 0))
                 (strftime_Ym (datetime.make 1000 1 1 0 0 0)).
Proof. repeat split. by_evaluation. Qed.

(** [datetime.max] is the last microsecond of 9999-12-31. *)
Example max_ordinal_9999 :
  datetime.ymd2ord 9999 12 31 + 1 = datetime.max_ordinal.
Proof. reflexivity. Qed.

(** ** Floats *)

(** [round(x, 2)] on halfway cases, on numbers that only print as halfway
    cases, and on the values it hands back. *)
Example round2_examples :
  Py.round2 0.125 = 0.12%float
  ∧ Py.round2 0.375 = 0.38%float
  ∧ Py.round2 2.675 = 2.67%float
  ∧ Py.round2 0.005000000000000001 = 0.01%float
  ∧ Py.round2 33.333333333333336 = 33.33%float
  ∧ Py.round2 (-0.004) = (-0)%float
  ∧ Py.round2 infinity = infinity
  ∧ Py.is_nan (Py.round2 nan) = true.
Proof. vm_compute. repeat split. Qed.

(** Sums of floats round: 0.1 + 0.2 is not 0.3, and a sum depends on the
    order of its terms. *)
Example running_sum_examples :
  running_sum [0.1; 0.2]%float = 0.30000000000000004%float
  ∧ running_sum [0.1; 0.2; -0.3]%float = 0x1p-54%float
  ∧ running_sum [-0.3; 0.2; 0.1]%float = 0x1p-55%float
  ∧ running_sum [1e100; 1; -1e100]%float = 0%float.
Proof. vm_compute. repeat split. Qed.

(** What a REAL column holds of a float. *)
Example sql_real_examples :
  sql_real nan = None
  ∧ sql_real (-0) = Some 0%float
  ∧ sql_real infinity = Some infinity
  ∧ sql_real 0.1 = Some 0.1%float.
Proof. vm_compute. repeat split. Qed.


(** ** Lookup by id and owner *)

Lemma primary_key_inj db r t :
  primary_key db →
  r ∈ transactions db → t ∈ transactions db →
  Transaction.id r = Transaction.id t → r = t.
Proof.
  unfold primary_key. induction (transactions db) as [|x l IH]; simpl.
  - intros _ Hr. by apply elem_of_nil in Hr.
  - rewrite NoDup_cons, !elem_of_cons. intros [Hx Hl] [->|Hr] [->|Ht] Hid; auto.
    + exfalso. apply Hx. rewrite Hid. by apply list_elem_of_fmap_2.
    + exfalso. apply Hx. rewrite <- Hid. by apply list_elem_of_fmap_2.
Qed.

Lemma get_transaction_Some db tid uid t :
  crud.get_transaction db tid uid = Some t →
  t ∈ transactions db ∧ Transaction.id t = tid ∧ Transaction.user_id t = uid.
Proof.
  unfold crud.get_transaction. intros H%head_Some_elem_of.
  apply list_elem_of_filter in H. tauto.
Qed.

Lemma get_transaction_None db tid uid :
  crud.get_transaction db tid uid = None ↔
  ∀ t, t ∈ transactions db →
       ¬ (Transaction.id t = tid ∧ Transaction.user_id t = uid).
Proof.
  unfold crud.get_transaction. rewrite head_None. split.
  - intros H t Ht HP.
    assert (Hin : t ∈ filter (λ t, Transaction.id t = tid
                                   ∧ Transaction.user_id t = uid)
                             (transactions db))
      by (by apply list_elem_of_filter).
    rewrite H in Hin. by apply elem_of_nil in Hin.
  - intros H. induction (transactions db) as [|x l IH]; [done|].
    rewrite filter_cons. destruct (decide _) as [HP|_].
    + exfalso. eapply H; [left|done].
    + apply IH. intros t Ht. apply H. by right.
Qed.

Lemma get_transaction_owned db t :
  primary_key db → t ∈ transactions db →
  crud.get_transaction db (Transaction.id t) (Transaction.user_id t) = Some t.
Proof.
  intros Hpk Ht.
  destruct (crud.get_transaction db _ _) as [r|] eqn:E.
  - apply get_transaction_Some in E as (Hr & Hid & _).
    f_equal. by eapply primary_key_inj.
  - exfalso. rewrite get_transaction_None in E. by eapply E.
Qed.

Lemma get_transaction_foreign db t uid :
  primary_key db → t ∈ transactions db → Transaction.user_id t ≠ uid →
  crud.get_transaction db (Transaction.id t) uid = None.
Proof.
  intros Hpk Ht Hne. apply get_transaction_None. intros r Hr [Hid Hu].
  apply Hne. rewrite <- Hu. f_equal. symmetry. by eapply primary_key_inj.
Qed.

(** ** The primary key is an invariant of the repository *)

Lemma next_id_fresh (ids : list Z) : next_id ids ∉ ids.
Proof.
  assert (Hbound : ∀ i, i ∈ ids → i < next_id ids).
  { unfold next_id. induction ids as [|j ids IH]; intros i.
    - by intros ?%elem_of_nil.
    - rewrite elem_of_cons. simpl. intros [->|Hi]; [lia|].
      specialize (IH i Hi). lia. }
  intros Hin. apply Hbound in Hin. lia.
Qed.

Lemma primary_key_empty : primary_key empty_db.
Proof. constructor. Qed.


Lemma primary_key_create db transaction user_id now r db' :
  primary_key db →
  crud.create_transaction db transaction user_id now = Py.Ok (r, db') →
  primary_key db'.
Proof.
  unfold primary_key, crud.create_transaction. intros Hpk.
  destruct (sql_real _) as [amount|]; [|done]. intros [= _ <-]. simpl.
  rewrite fmap_app. simpl.
  apply NoDup_app. split; [done|]. split.
  - intros i Hi ->%list_elem_of_singleton. by apply next_id_fresh in Hi.
  - apply NoDup_singleton.
Qed.

Lemma primary_key_update db transaction_id patch user_id r db' :
  primary_key db →
  crud.update_transaction db transaction_id patch user_id = Py.Ok (r, db') →
  primary_key db'.
Proof.
  unfold primary_key, crud.update_transaction. intros Hpk.
  destruct (crud.get_transaction db _ _) as [t|]; [|by intros [= _ <-]].
  destruct (crud.set_real_not_null _ (schemas.tu_amount _)); [|done].
  destruct (crud.set_not_null _ (schemas.tu_category _)); [|done].
  destruct (crud.set_not_null _ (schemas.tu_transaction_type _)); [|done].
  simpl. intros [= _ <-]. simpl.
  rewrite <- list_fmap_compose.
  erewrite list_fmap_ext; [exact Hpk|].
  intros i x _. simpl. by case_decide.
Qed.

Lemma primary_key_delete db transaction_id user_id :
  primary_key db →
  primary_key (crud.delete_transaction db transaction_id user_id).2.
Proof.
  unfold primary_key, crud.delete_transaction. intros Hpk.
  destruct (crud.get_transaction db _ _) as [t|]; [|done]. simpl.
  eapply sublist_NoDup; [exact Hpk|].
  apply fmap_sublist, sublist_filter.
Qed.

(** Section 8: a transaction that was deleted is not found again. *)
Lemma delete_then_get db transaction_id user_id t :
  (crud.delete_transaction db transaction_id user_id).1 = Some t →
  crud.get_transaction (crud.delete_transaction db transaction_id user_id).2
                       transaction_id user_id
  = None.
Proof.
  unfold crud.delete_transaction.
  destruct (crud.get_transaction db _ _) as [r|] eqn:E; [|done].
  simpl. intros [= ->]. apply get_transaction_Some in E as (_ & Hid & _).
  apply get_transaction_None. simpl. intros x Hx [Hxid _].
  apply list_elem_of_filter in Hx as [Hne _]. congruence.
Qed.

(** ** Rows of other users *)

Lemma owned_by_without db t uid :
  primary_key db → t ∈ transactions db → Transaction.user_id t ≠ uid →
  owned_by uid (without t db) = owned_by uid db.
Proof.
  intros Hpk Ht Hne. unfold owned_by, without. simpl.
  rewrite list_filter_filter.
  assert (Hall : ∀ r, r ∈ transactions db →
                      Transaction.id r = Transaction.id t → r = t)
    by (intros r Hr Hid; by eapply primary_key_inj).
  clear Hpk Ht. induction (transactions db) as [|r l IH]; [done|].
  rewrite !filter_cons. rewrite IH by (intros; apply Hall; [by right|done]).
  destruct (decide (Transaction.user_id r = uid)) as [Hu|Hu].
  - rewrite decide_True; [done|]. split; [done|].
    intros Hid. apply Hall in Hid; [|by left]. congruence.
  - rewrite decide_False; [done|]. tauto.
Qed.

(** ** The listing query *)

Global Instance date_desc_total : Total date_desc.
Proof.
  intros a b. unfold date_desc.
  destruct (Transaction.date a), (Transaction.date b); simpl; auto; lia.
Qed.

Lemma truthy_non_empty f : Py.truthy f = bool_decide (is_Some (non_empty f)).
Proof.
  destruct f as [s|]; simpl; [|done].
  destruct (decide (s = "")) as [->|Hs]; [done|].
  apply String.eqb_neq in Hs. rewrite Hs. done.
Qed.

Lemma non_empty_Some f s : non_empty f = Some s → f = Some s.
Proof. destruct f as [x|]; simpl; [|done]. by destruct (decide _). Qed.

Lemma sql_ge_on_or_after t s :
  sql_ge (Transaction.date t) s ↔ on_or_after s t.
Proof.
  unfold sql_ge, on_or_after. destruct (Transaction.date t) as [d|]; split.
  - intros Hd. by exists d.
  - by intros (? & [= <-] & ?).
  - done.
  - by intros (? & ? & _).
Qed.

Lemma sql_le_on_or_before t e :
  sql_le (Transaction.date t) e ↔ on_or_before e t.
Proof.
  unfold sql_le, on_or_before. destruct (Transaction.date t) as [d|]; split.
  - intros Hd. by exists d.
  - by intros (? & [= <-] & ?).
  - done.
  - by intros (? & ? & _).
Qed.


Lemma sql_integer_Ok n m : sql_integer n = Py.Ok m → m = n ∧ int64 n.
Proof. unfold sql_integer, int64. case_decide; [|done]. by intros [= <-]. Qed.

Lemma sql_integer_int64 n : int64 n → sql_integer n = Py.Ok n.
Proof. unfold sql_integer, int64. intros Hn. by rewrite decide_True. Qed.

(** The listing query as one filter: the bound parameters are checked, and
    the rows that match are sorted, skipped and cut. *)
Lemma get_transactions_query db uid skip limit category ty sd ed :
  crud.get_transactions db uid skip limit category ty sd ed =
  limit ← sql_integer limit;
  skip ← sql_integer skip;
  mret (sql_limit limit (sql_offset skip (merge_sort date_desc
    (filter (matches uid (non_empty category) (non_empty ty) sd ed)
            (transactions db))))).
Proof.
  unfold crud.get_transactions.
  destruct (sql_integer limit) as [limit'|]; [simpl|done].
  destruct (sql_integer skip) as [skip'|]; [simpl|done].
  do 4 f_equal.
  rewrite !truthy_non_empty.
  destruct (non_empty category) as [c|] eqn:Ec, (non_empty ty) as [y|] eqn:Ey,
    sd as [s|], ed as [e|]; simpl;
    try apply non_empty_Some in Ec as ->; try apply non_empty_Some in Ey as ->;
    rewrite ?list_filter_filter; apply list_filter_iff; intros t;
    unfold matches; simpl; rewrite ?sql_ge_on_or_after, ?sql_le_on_or_before;
    intuition congruence.
Qed.

Lemma get_transactions_Ok db uid skip limit category ty sd ed :
  int64 limit → int64 skip →
  crud.get_transactions db uid skip limit category ty sd ed =
  Py.Ok (sql_limit limit (sql_offset skip (merge_sort date_desc
    (filter (matches uid (non_empty category) (non_empty ty) sd ed)
            (transactions db))))).
Proof.
  intros Hlimit Hskip.
  by rewrite get_transactions_query, !sql_integer_int64.
Qed.

Lemma get_transactions_inv db uid skip limit category ty sd ed rows :
  crud.get_transactions db uid skip limit category ty sd ed = Py.Ok rows →
  rows = sql_limit limit (sql_offset skip (merge_sort date_desc
    (filter (matches uid (non_empty category) (non_empty ty) sd ed)
            (transactions db)))).
Proof.
  rewrite get_transactions_query.
  destruct (sql_integer limit) as [limit'|] eqn:El; [simpl|done].
  destruct (sql_integer skip) as [skip'|] eqn:Es; [simpl|done].
  apply sql_integer_Ok in El as [-> _], Es as [-> _]. by intros [= <-].
Qed.

Lemma sql_limit_sublist {A} n (l : list A) : sql_limit n l `sublist_of` l.
Proof. unfold sql_limit. destruct (decide _); [done|apply sublist_take]. Qed.

Lemma sql_offset_sublist {A} n (l : list A) : sql_offset n l `sublist_of` l.
Proof. apply sublist_drop. Qed.

Lemma get_transactions_elem db uid skip limit category ty sd ed rows r :
  crud.get_transactions db uid skip limit category ty sd ed = Py.Ok rows →
  r ∈ rows →
  r ∈ transactions db
  ∧ matches uid (non_empty category) (non_empty ty) sd ed r.
Proof.
  intros ->%get_transactions_inv H.
  eapply sublist_subseteq in H;
    [|etrans; [apply sql_limit_sublist|apply sql_offset_sublist]].
  rewrite merge_sort_Permutation in H.
  apply list_elem_of_filter in H. tauto.
Qed.

(** ** Queries scoped to a user read that user's rows only *)

Lemma filter_owned (P : Transaction.t → Prop) `{∀ t, Decision (P t)} db uid :
  filter (λ t, Transaction.user_id t = uid ∧ P t) (transactions db)
  = filter P (owned_by uid db).
Proof.
  unfold owned_by. rewrite list_filter_filter.
  apply list_filter_iff. tauto.
Qed.


Lemma get_transactions_scoped db1 db2 uid skip limit category ty sd ed :
  owned_by uid db1 = owned_by uid db2 →
  crud.get_transactions db1 uid skip limit category ty sd ed
  = crud.get_transactions db2 uid skip limit category ty sd ed.
Proof.
  unfold crud.get_transactions. fold (owned_by uid db1) (owned_by uid db2).
  by intros ->.
Qed.

Lemma get_dashboard_stats_scoped `{Interpreter} db1 db2 uid :
  owned_by uid db1 = owned_by uid db2 →
  crud.get_dashboard_stats db1 uid = crud.get_dashboard_stats db2 uid.
Proof.
  unfold crud.get_dashboard_stats. fold (owned_by uid db1) (owned_by uid db2).
  by intros ->.
Qed.

Lemma get_category_breakdown_scoped `{Interpreter} `{Engine} db1 db2 uid ty :
  owned_by uid db1 = owned_by uid db2 →
  crud.get_category_breakdown db1 uid ty
  = crud.get_category_breakdown db2 uid ty.
Proof.
  unfold crud.get_category_breakdown. rewrite !filter_owned. by intros ->.
Qed.

Lemma get_monthly_summary_scoped `{Interpreter} db1 db2 uid months now :
  owned_by uid db1 = owned_by uid db2 →
  crud.get_monthly_summary db1 uid months now
  = crud.get_monthly_summary db2 uid months now.
Proof.
  intros Heq. unfold crud.get_monthly_summary.
  destruct (datetime.timedelta_days _) as [delta|]; [|done]. simpl.
  destruct (datetime.sub _ _) as [start_date|]; [|done]. simpl.
  by rewrite !filter_owned, Heq.
Qed.

Lemma get_categories_scoped db1 db2 (current_user : User.t) :
  owned_by (User.id current_user) db1 = owned_by (User.id current_user) db2 →
  main.get_categories db1 current_user = main.get_categories db2 current_user.
Proof.
  unfold main.get_categories.
  fold (owned_by (User.id current_user) db1).
  fold (owned_by (User.id current_user) db2).
  by intros ->.
Qed.

(** ** Ownership isolation *)

(** C1.  A transaction [t] owned by user [B] is out of reach of any other
    user [A]: reading, updating and deleting it by id as [A] finds nothing and
    leaves the store as it is, and each endpoint answers 404; no listing of
    [A] contains [t]; every listing and aggregation of [A] is the same with
    and without the row of [t]; the owner [B] does reach it. *)
Theorem transaction_isolation `{Interpreter} `{Engine} (db : Session)
    (A B : User.t) (t : Transaction.t) :
  primary_key db →
  User.id A ≠ User.id B →
  t ∈ transactions db →
  Transaction.user_id t = User.id B →
  (crud.get_transaction db (Transaction.id t) (User.id A) = None
   ∧ status_of (main.read_transaction db (Transaction.id t) A) = 404)
  ∧ (∀ patch,
       crud.update_transaction db (Transaction.id t) patch (User.id A)
       = Py.Ok (None, db)
       ∧ status_of (fst (main.update_transaction db (Transaction.id t) patch A))
         = 404
       ∧ snd (main.update_transaction db (Transaction.id t) patch A) = db)
  ∧ (crud.delete_transaction db (Transaction.id t) (User.id A) = (None, db)
     ∧ status_of (fst (main.delete_transaction db (Transaction.id t) A)) = 404
     ∧ snd (main.delete_transaction db (Transaction.id t) A) = db)
  ∧ (∀ skip limit category ty sd ed,
       (∀ rows,
          crud.get_transactions db (User.id A) skip limit category ty sd ed
          = Py.Ok rows →
          ¬ (t ∈ rows))
       ∧ crud.get_transactions (without t db) (User.id A)
                               skip limit category ty sd ed
         = crud.get_transactions db (User.id A) skip limit category ty sd ed)
  ∧ crud.get_dashboard_stats (without t db) (User.id A)
    = crud.get_dashboard_stats db (User.id A)
  ∧ (∀ ty, crud.get_category_breakdown (without t db) (User.id A) ty
           = crud.get_category_breakdown db (User.id A) ty)
  ∧ (∀ months now,
       crud.get_monthly_summary (without t db) (User.id A) months now
       = crud.get_monthly_summary db (User.id A) months now)
  ∧ main.get_categories (without t db) A = main.get_categories db A
  ∧ crud.get_transaction db (Transaction.id t) (User.id B) = Some t.
Proof.
  intros Hpk HAB Ht HB.
  assert (Hne : Transaction.user_id t ≠ User.id A) by congruence.
  pose proof (get_transaction_foreign db t (User.id A) Hpk Ht Hne) as Hget.
  pose proof (owned_by_without db t (User.id A) Hpk Ht Hne) as Hown.
  repeat split.
  - exact Hget.
  - unfold main.read_transaction. by rewrite Hget.
  - unfold crud.update_transaction. by rewrite Hget.
  - unfold main.update_transaction, crud.update_transaction. by rewrite Hget.
  - unfold main.update_transaction, crud.update_transaction. by rewrite Hget.
  - unfold crud.delete_transaction. by rewrite Hget.
  - unfold main.delete_transaction, crud.delete_transaction. by rewrite Hget.
  - unfold main.delete_transaction, crud.delete_transaction. by rewrite Hget.
  - intros rows Hrows Hin.
    eapply get_transactions_elem in Hin as [_ [Hu _]]; done.
  - by apply get_transactions_scoped.
  - by apply get_dashboard_stats_scoped.
  - intros ty. by apply get_category_breakdown_scoped.
  - intros months now. by apply get_monthly_summary_scoped.
  - by apply get_categories_scoped.
  - rewrite <- HB. by apply get_transaction_owned.
Qed.

(** Alice and Bob's rent in the worked store: Alice does not reach it, Bob
    does. *)
Lemma transaction_isolation_witness :
  crud.get_transaction example.db 4 1 = None
  ∧ crud.get_transaction example.db 4 2 = Some example.rent_row.
Proof.
  assert (Hpk : primary_key example.db)
    by (unfold primary_key; by_evaluation).
  assert (HAB : User.id example.alice ≠ User.id example.bob)
    by (vm_compute; discriminate).
  assert (Ht : example.rent_row ∈ transactions example.db)
    by (vm_compute; repeat constructor).
  assert (HB : Transaction.user_id example.rent_row = User.id example.bob)
    by reflexivity.
  pose proof (@transaction_isolation example.cpython example.sqlite
                example.db example.alice example.bob
                example.rent_row Hpk HAB Ht HB) as H.
  split; [exact (proj1 (proj1 H))|].
  exact (proj2 (proj2 (proj2 (proj2 (proj2 (proj2 (proj2 (proj2 H)))))))).
Defined.

(** The four creation requests of the scenario build the worked store; a
    request whose amount is NaN is refused by the table, and one whose amount
    is -0.0 is stored as 0.0. *)
Example create_transaction_scenario :
  (r ← crud.create_transaction (mkSession [example.alice; example.bob] [])
                               example.salary 1 example.now;
   r ← crud.create_transaction r.2 example.lunch 1 example.now;
   r ← crud.create_transaction r.2 example.dinner 1 example.now;
   r ← crud.create_transaction r.2 example.rent 2 example.now;
   mret r.2)
  = Py.Ok example.db
  ∧ crud.create_transaction example.db
      (schemas.mkTransactionCreate nan "food" None "expense" example.now)
      1 example.now
    = Py.Raise Py.IntegrityError
  ∧ (r ← crud.create_transaction example.db
            (schemas.mkTransactionCreate (-0) "food" None "expense"
                                         example.now)
            1 example.now;
     mret (Transaction.amount r.1))
    = Py.Ok 0%float.
Proof. vm_compute. repeat split. Qed.

(** ** The listing contract *)

Lemma sql_limit_take {A} n (l : list A) :
  0 ≤ n → sql_limit n l = take (Z.to_nat n) l.
Proof. intros Hn. unfold sql_limit. by rewrite decide_False by lia. Qed.

(** C6, as the code has it.  For a limit from 0 to 2^63 - 1 and a skip that
    is a 64-bit integer, the listing is returned and is made of the owner's
    rows that pass every filter in force, a text filter being in force when
    it is supplied and is not the empty string; the rows come by occurrence
    date from the latest to the earliest, the first [skip] are dropped and at
    most [limit] are returned.  The endpoint reads a limit the caller leaves
    out as 100 (and a skip left out as 0). *)
Theorem get_transactions_listing (db : Session) (user_id skip limit : Z)
    (category transaction_type : option string)
    (start_date end_date : option datetime.t) :
  0 ≤ limit < 2 ^ 63 →
  int64 skip →
  listing (matches user_id (non_empty category) (non_empty transaction_type)
                   start_date end_date)
          db skip limit
          (crud.get_transactions db user_id skip limit category
                                 transaction_type start_date end_date)
  ∧ (∃ rows,
       crud.get_transactions db user_id skip limit category
                             transaction_type start_date end_date
       = Py.Ok rows
       ∧ (length rows ≤ Z.to_nat limit)%nat)
  ∧ ∀ current_user skip',
      main.read_transactions db skip' None category transaction_type
                             start_date end_date current_user
      = match crud.get_transactions db (User.id current_user)
                (default 0 skip') 100 category transaction_type
                start_date end_date with
        | Py.Ok rows => Return rows
        | Py.Raise e => Unhandled e
        end.
Proof.
  intros Hlimit Hskip.
  assert (Hlimit' : int64 limit) by (unfold int64; lia).
  rewrite get_transactions_Ok by done. split; [|split].
  - exists (merge_sort date_desc
              (filter (matches user_id (non_empty category)
                               (non_empty transaction_type)
                               start_date end_date)
                      (transactions db))).
    split; [|split].
    + apply merge_sort_Permutation.
    + apply Sorted_merge_sort. apply _.
    + by rewrite sql_limit_take by lia.
  - eexists. split; [done|].
    rewrite sql_limit_take by lia. rewrite length_take. lia.
  - done.
Qed.

(** The listing of Alice's food rows in the worked store. *)
Lemma get_transactions_listing_witness :
  listing (matches 1 (Some "food") None None None) example.db 0 100
          (crud.get_transactions example.db 1 0 100 (Some "food")
                                 None None None).
Proof.
  assert (Hlimit : 0 ≤ 100 < 2 ^ 63) by lia.
  assert (Hskip : int64 0) by (unfold int64; lia).
  exact (proj1 (get_transactions_listing example.db 1 0 100 (Some "food")
                  None None None Hlimit Hskip)).
Defined.

(** C6 as stated fails: a category filter that is supplied as the empty
    string does not restrict the listing to the rows whose category is the
    empty string. *)
Lemma get_transactions_listing_counterexample :
  ¬ listing (matches 1 (Some "") None None None) example.db 0 100
            (crud.get_transactions example.db 1 0 100 (Some "")
                                   None None None).
Proof.
  intros (sorted & Hperm & _ & Hresult).
  vm_compute in Hperm. apply Permutation_nil_r in Hperm as ->.
  vm_compute in Hresult. discriminate Hresult.
Qed.

(** A limit or a skip that is no 64-bit integer is refused when the
    statement is run, and the endpoint fails. *)
Lemma get_transactions_overflow db uid skip limit category ty sd ed :
  ¬ (int64 limit ∧ int64 skip) →
  crud.get_transactions db uid skip limit category ty sd ed
  = Py.Raise Py.OverflowError.
Proof.
  intros Hout. rewrite get_transactions_query. unfold sql_integer.
  fold (int64 limit) (int64 skip).
  destruct (decide (int64 limit)); [simpl|done].
  destruct (decide (int64 skip)); [tauto|done].
Qed.

Example read_transactions_overflow :
  main.read_transactions example.db None (Some (2 ^ 63)) None None None None
                         example.alice
  = Unhandled Py.OverflowError
  ∧ main.read_transactions example.db (Some (2 ^ 63)) None None None None None
                           example.alice
    = Unhandled Py.OverflowError.
Proof. split; reflexivity. Qed.

(** A negative limit is no limit (section 8 scenario: all three rows). *)
Example get_transactions_negative_limit :
  crud.get_transactions example.db 1 0 (-1) None None None None
  = Py.Ok [example.dinner_row; example.lunch_row; example.salary_row].
Proof. reflexivity. Qed.

(** The listing of section 8: the two food rows, February before January. *)
Example get_transactions_food :
  crud.get_transactions example.db 1 0 100 (Some "food") None None None
  = Py.Ok [example.dinner_row; example.lunch_row].
Proof. reflexivity. Qed.

(** C9.  A category filter, or a type filter, that is the empty string acts
    as a filter left out: the listing is the one without that filter, made of
    the rows of every category (of every type). *)
Theorem empty_filter_is_no_filter (db : Session) (user_id skip limit : Z)
    (category transaction_type : option string)
    (start_date end_date : option datetime.t) :
  crud.get_transactions db user_id skip limit (Some "") transaction_type
                        start_date end_date
  = crud.get_transactions db user_id skip limit None transaction_type
                          start_date end_date
  ∧ crud.get_transactions db user_id skip limit category (Some "")
                          start_date end_date
    = crud.get_transactions db user_id skip limit category None
                            start_date end_date
  ∧ crud.get_transactions db user_id skip limit (Some "") (Some "")
                          start_date end_date
    = (limit ← sql_integer limit;
       skip ← sql_integer skip;
       mret (sql_limit limit (sql_offset skip (merge_sort date_desc
         (filter (matches user_id None None start_date end_date)
                 (transactions db)))))).
Proof.
  split; [|split].
  - reflexivity.
  - reflexivity.
  - apply get_transactions_query.
Qed.

(** ** Partial update *)

Lemma replace_by_id_absent (l : list Transaction.t) k t' :
  k ∉ Transaction.id <$> l →
  (λ r, if decide (Transaction.id r = k) then t' else r) <$> l = l.
Proof.
  induction l as [|x l IH]; [done|]. rewrite fmap_cons, not_elem_of_cons.
  intros [Hx Hl]. rewrite fmap_cons, IH by done.
  by rewrite decide_False by done.
Qed.

Lemma replace_by_id_insert (l : list Transaction.t) i t t' :
  NoDup (Transaction.id <$> l) → l !! i = Some t →
  (λ r, if decide (Transaction.id r = Transaction.id t) then t' else r) <$> l
  = <[i := t']> l.
Proof.
  revert i. induction l as [|x l IH]; intros i; [done|].
  rewrite fmap_cons, NoDup_cons. intros [Hx Hl]. destruct i as [|i]; simpl.
  - intros [= ->]. rewrite decide_True by done.
    f_equal. by apply replace_by_id_absent.
  - intros Hi. rewrite decide_False.
    + f_equal. by apply IH.
    + intros Hid. apply Hx. rewrite Hid.
      apply list_elem_of_fmap_2. by eapply list_elem_of_lookup_2.
Qed.

Lemma replace_by_itself (l : list Transaction.t) t :
  NoDup (Transaction.id <$> l) → t ∈ l →
  (λ r, if decide (Transaction.id r = Transaction.id t) then t else r) <$> l
  = l.
Proof.
  intros Hl [i Hi]%list_elem_of_lookup_1.
  rewrite (replace_by_id_insert l i t t Hl Hi). by apply list_insert_id.
Qed.


(** A patch that sets a NOT NULL column to null, or the amount to NaN, is
    refused at commit. *)
Lemma update_transaction_null db t patch :
  primary_key db → t ∈ transactions db → ¬ keeps_not_null patch →
  crud.update_transaction db (Transaction.id t) patch (Transaction.user_id t)
  = Py.Raise Py.IntegrityError.
Proof.
  intros Hpk Ht Hnull. unfold crud.update_transaction.
  rewrite get_transaction_owned by done.
  destruct patch as [[[a|]|] [[c|]|] d [[y|]|] dt]; simpl; unfold sql_real;
    try done;
    try (destruct (Py.is_nan a) eqn:Ea; [done|simpl]); try done;
    exfalso; apply Hnull; unfold keeps_not_null; simpl;
    (repeat split; [..|done|done]); try done; by intros x [= <-].
Qed.

(** C5, as the code has it.  For a stored transaction and a patch that sets
    no NOT NULL column (amount, category, type) to null and the amount to no
    NaN, the update by the owner returns the record changed in the fields of
    the patch and in no other, the amount as the table holds it, and stores
    it in the place of the old one; with the empty patch it returns the
    record as it was and the store is as it was. *)
Theorem update_transaction_patch (db : Session) (t : Transaction.t)
    (patch : schemas.TransactionUpdate) :
  primary_key db → t ∈ transactions db → keeps_not_null patch →
  applies_patch db t patch
    (crud.update_transaction db (Transaction.id t) patch
                             (Transaction.user_id t))
  ∧ crud.update_transaction db (Transaction.id t) schemas.empty_update
                            (Transaction.user_id t)
    = Py.Ok (Some t, db).
Proof.
  intros Hpk Ht (Ha & Hnan & Hc & Hy). unfold crud.update_transaction.
  rewrite get_transaction_owned by done. split.
  - destruct (list_elem_of_lookup_1 _ _ Ht) as [i Hi].
    destruct patch as [[[a|]|] [[c|]|] d [[y|]|] dt]; simpl in *; try done;
      unfold sql_real; rewrite ?(Hnan a eq_refl); simpl;
      (eexists _, _; split; [reflexivity|]; simpl;
       repeat (split; [by destruct d, dt|]);
       exists i; split; [done|]; by apply replace_by_id_insert).
  - simpl. destruct db as [us ts]; simpl in *.
    pose proof (replace_by_itself ts t Hpk Ht) as Hsame.
    destruct t; simpl in *. by rewrite Hsame.
Qed.

(** Raising the amount of Alice's salary in the worked store. *)
Lemma update_transaction_patch_witness :
  applies_patch example.db example.salary_row example.raise_amount
    (crud.update_transaction example.db 1 example.raise_amount 1).
Proof.
  assert (Hpk : primary_key example.db)
    by (unfold primary_key; by_evaluation).
  assert (Ht : example.salary_row ∈ transactions example.db)
    by (vm_compute; repeat constructor).
  assert (Hnn : keeps_not_null example.raise_amount)
    by (repeat split; try discriminate; by intros x [= <-]).
  exact (proj1 (update_transaction_patch example.db example.salary_row
                  example.raise_amount Hpk Ht Hnn)).
Defined.

(** C5 as stated fails: a patch that sets the amount to null is refused by
    the store, so the update of an owned transaction returns no record. *)
Lemma update_transaction_patch_counterexample :
  ¬ applies_patch example.db example.salary_row example.null_amount
      (crud.update_transaction example.db 1 example.null_amount 1).
Proof.
  intros (t' & db' & Houtcome & _).
  vm_compute in Houtcome. discriminate Houtcome.
Qed.

(** The same for a patch that sets the amount to NaN; a patch that sets it
    to -0.0 is stored as 0.0. *)
Example update_transaction_null_amount :
  crud.update_transaction example.db 1 example.null_amount 1
  = Py.Raise Py.IntegrityError
  ∧ main.update_transaction example.db 1 example.null_amount example.alice
    = (Unhandled Py.IntegrityError, example.db)
  ∧ crud.update_transaction example.db 1 example.nan_amount 1
    = Py.Raise Py.IntegrityError
  ∧ match crud.update_transaction example.db 1
            (schemas.mkTransactionUpdate (Some (Some (-0)%float))
                                         None None None None) 1 with
    | Py.Ok (Some r, _) => Some (Transaction.amount r)
    | _ => None
    end = Some 0%float.
Proof. vm_compute. repeat split. Qed.

(** ** Dashboard statistics *)

Lemma owned_of_type_owned uid ty db :
  owned_of_type uid ty db = of_type ty (owned_by uid db).
Proof. apply filter_owned. Qed.

(** C2.  For every store and user, the dashboard reports as income the sum,
    as Python takes it, of the amounts of the user's transactions of type
    income, as expenses that of the user's transactions of type expense, as
    balance the float difference of the two, and as count the number of the
    user's transactions, of any type. *)
Theorem dashboard_stats_totals `{Interpreter} (db : Session) (user_id : Z) :
  let stats := crud.get_dashboard_stats db user_id in
  schemas.total_income stats
  = py_sum (amounts (owned_of_type user_id "income" db))
  ∧ schemas.total_expenses stats
    = py_sum (amounts (owned_of_type user_id "expense" db))
  ∧ schemas.balance stats
    = (schemas.total_income stats - schemas.total_expenses stats)%float
  ∧ schemas.transaction_count stats = length (owned_by user_id db).
Proof. simpl. by rewrite !owned_of_type_owned. Qed.

Section dashboard_scenario.
#[local] Existing Instances example.cpython example.sqlite.

(** The dashboard of section 8: income 100, expenses 100, balance 0, three
    transactions. *)
Example dashboard_stats_scenario :
  crud.get_dashboard_stats example.db 1
  = schemas.mkDashboardStats 100 100 0 3.
Proof. reflexivity. Qed.

(** Totals are sums of floats: expenses of 0.1, 0.2 and -0.3 add up to
    2^-54, and the balance is its opposite. *)
Example dashboard_stats_small :
  crud.get_dashboard_stats example.small_db 1
  = schemas.mkDashboardStats 0 0x1p-54 (-0x1p-54) 3.
Proof. vm_compute. reflexivity. Qed.

End dashboard_scenario.

(** ** Grouping by category *)




(** ** Category breakdown *)





Section breakdown_scenario.
#[local] Existing Instances example.cpython example.sqlite.


Example category_breakdown_refund :
  crud.get_category_breakdown example.refund_db 1 "expense"
  = Py.Ok [schemas.mkCategoryBreakdown "food" (-50) 0].
Proof. vm_compute. reflexivity. Qed.

(** The breakdown of section 8: one group, food, 100, 100 per cent. *)
Example category_breakdown_scenario :
  crud.get_category_breakdown example.db 1 "expense"
  = Py.Ok [schemas.mkCategoryBreakdown "food" 100 100].
Proof. vm_compute. reflexivity. Qed.

End breakdown_scenario.

(** ** The percentages *)


Section percentages_scenario.
#[local] Existing Instances example.cpython example.sqlite.


Example category_breakdown_small :
  crud.get_category_breakdown example.small_db 1 "expense"
  = Py.Ok [schemas.mkCategoryBreakdown "coffee" 0.1 180143985094819840;
           schemas.mkCategoryBreakdown "paper" 0.2 360287970189639680;
           schemas.mkCategoryBreakdown "returned" (-0.3)
                                       (-540431955284459520)].
Proof. vm_compute. reflexivity. Qed.

(** Expenses of 1 and 19999: the quotient 1 / 20000 is a float just above
    0.00005, so that the first percentage rounds to 0.01 and the two add up
    to 100.01. *)
Example category_breakdown_uneven :
  crud.get_category_breakdown
    (mkSession []
       [Transaction.mk 1 1 "a" None "expense" None example.now 1;
        Transaction.mk 2 19999 "b" None "expense" None example.now 1])
    1 "expense"
  = Py.Ok [schemas.mkCategoryBreakdown "a" 1 0.01;
           schemas.mkCategoryBreakdown "b" 19999 100].
Proof. vm_compute. reflexivity. Qed.

End percentages_scenario.

(** ** Monthly buckets *)

Lemma bucket_snoc `{Interpreter} m rows t :
  bucket m (rows ++ [t])
  = bucket m rows ++ (if decide (month_of t = Some m) then [t] else []).
Proof. unfold bucket. by rewrite filter_app, filter_singleton. Qed.

Lemma of_type_snoc ty rows t :
  of_type ty (rows ++ [t])
  = of_type ty rows
    ++ (if decide (Transaction.transaction_type t = ty) then [t] else []).
Proof. unfold of_type. by rewrite filter_app, filter_singleton. Qed.

Lemma not_of_type_snoc ty rows t :
  not_of_type ty (rows ++ [t])
  = not_of_type ty rows
    ++ (if decide (Transaction.transaction_type t ≠ ty) then [t] else []).
Proof. unfold not_of_type. by rewrite filter_app, filter_singleton. Qed.

Lemma running_sum_snoc xs x :
  running_sum (xs ++ [x]) = (running_sum xs + x)%float.
Proof. unfold running_sum. by rewrite foldl_snoc. Qed.

Lemma running_sum_amounts_snoc rows t :
  running_sum (amounts (rows ++ [t]))
  = (running_sum (amounts rows) + Transaction.amount t)%float.
Proof. unfold amounts. rewrite fmap_app. apply running_sum_snoc. Qed.

Lemma monthly_invariant_nil `{Interpreter} : monthly_invariant [] ∅.
Proof. intros m. by rewrite lookup_empty. Qed.

Lemma monthly_invariant_step `{Interpreter} rows monthly_data t :
  monthly_invariant rows monthly_data →
  monthly_invariant (rows ++ [t]) (crud.monthly_step monthly_data t).
Proof.
  intros Hinv m. specialize (Hinv m). unfold crud.monthly_step.
  rewrite bucket_snoc. unfold month_of.
  destruct (Transaction.date t) as [date|].
  2: { simpl. by rewrite app_nil_r. }
  change (datetime.strftime_Ym <$> Some date)
    with (Some (datetime.strftime_Ym date)).
  set (k := datetime.strftime_Ym date).
  destruct (decide (Some k = Some m)) as [[= Hk]|Hne].
  - (* the month of [t] *)
    subst m.
    assert (Hlookup :
      (if decide (is_Some (monthly_data !! k)) then monthly_data
       else <[k := (0, 0)%float]> monthly_data) !! k
      = Some (default (0, 0)%float (monthly_data !! k))).
    { destruct (decide _) as [[d Hd]|Hnone].
      - by rewrite Hd.
      - rewrite lookup_insert_eq.
        apply eq_None_not_Some in Hnone. by rewrite Hnone. }
    assert (Hold :
      let d := default (0, 0)%float (monthly_data !! k) in
      d.1 = running_sum (amounts (of_type "income" (bucket k rows)))
      ∧ d.2 = running_sum (amounts (not_of_type "income" (bucket k rows)))).
    { destruct (monthly_data !! k) as [d|]; simpl; [tauto|].
      rewrite Hinv. done. }
    clear Hinv. simpl in Hold. destruct Hold as [Hincome Hother].
    rewrite of_type_snoc, not_of_type_snoc.
    destruct (decide (Transaction.transaction_type t = "income")) as [Hty|Hty].
    + rewrite lookup_alter_eq, Hlookup. simpl.
      rewrite decide_False by (by intros ?).
      rewrite app_nil_r, running_sum_amounts_snoc. simpl.
      split; [by intros [_ ?]%app_eq_nil|]. split; [|done].
      by rewrite Hincome.
    + rewrite lookup_alter_eq, Hlookup. simpl.
      rewrite decide_True by done.
      rewrite app_nil_r, running_sum_amounts_snoc. simpl.
      split; [by intros [_ ?]%app_eq_nil|]. split; [done|].
      by rewrite Hother.
  - (* another month *)
    rewrite app_nil_r.
    assert (Hkm : k ≠ m) by congruence.
    destruct (decide (Transaction.transaction_type t = "income"));
      rewrite lookup_alter_ne by done;
      (destruct (decide (is_Some (monthly_data !! k)));
       [done|by rewrite lookup_insert_ne by done]).
Qed.

Lemma monthly_invariant_loop `{Interpreter} rows :
  monthly_invariant rows (foldl crud.monthly_step ∅ rows).
Proof.
  induction rows as [|t rows IH] using rev_ind.
  - apply monthly_invariant_nil.
  - rewrite foldl_snoc. by apply monthly_invariant_step.
Qed.

(** ** Monthly summary *)

Global Instance item_le_total {V} : Total (@Py.item_le V).
Proof. intros a b. unfold Py.item_le. apply (total String.le). Qed.

Lemma sorted_items_perm {V} (d : gmap string V) :
  Py.sorted_items d ≡ₚ map_to_list d.
Proof. apply merge_sort_Permutation. Qed.

Lemma sorted_items_keys_sorted {V} (d : gmap string V) :
  Sorted String.le (fst <$> Py.sorted_items d).
Proof.
  apply (Sorted_fmap fst Py.item_le); [done|].
  apply Sorted_merge_sort. apply _.
Qed.

Lemma sorted_items_keys_NoDup {V} (d : gmap string V) :
  NoDup (fst <$> Py.sorted_items d).
Proof. rewrite sorted_items_perm. apply NoDup_fst_map_to_list. Qed.

Lemma elem_of_sorted_items {V} (d : gmap string V) k v :
  (k, v) ∈ Py.sorted_items d ↔ d !! k = Some v.
Proof. rewrite sorted_items_perm. apply elem_of_map_to_list. Qed.

Lemma window_rows db uid months now :
  filter (λ t, Transaction.user_id t = uid
               ∧ sql_ge (Transaction.date t)
                        (now - 30 * months * datetime.us_per_day)
               ∧ sql_le (Transaction.date t) now)
         (transactions db)
  = filter (in_window now months) (owned_by uid db).
Proof.
  rewrite filter_owned. apply list_filter_iff. intros t.
  unfold sql_ge, sql_le, in_window.
  destruct (Transaction.date t) as [d|]; split.
  - intros [? ?]. eauto.
  - intros (? & [= <-] & ?). lia.
  - intros [[] _].
  - intros (? & [=] & _).
Qed.

(** The value of the call when the start of the window is a datetime. *)
Lemma get_monthly_summary_Ok `{Interpreter} db uid months now :
  window_representable now months →
  crud.get_monthly_summary db uid months now
  = Py.Ok ((λ item : string * (float * float),
              schemas.mkMonthlyData item.1 item.2.1 item.2.2)
           <$> Py.sorted_items
                 (foldl crud.monthly_step ∅
                    (filter (in_window now months) (owned_by uid db)))).
Proof.
  intros [Hdays Hstart]. unfold crud.get_monthly_summary.
  unfold datetime.timedelta_days. rewrite bool_decide_eq_true_2 by done.
  simpl. unfold datetime.sub, datetime.representable.
  rewrite bool_decide_eq_true_2 by done. simpl.
  by rewrite window_rows.
Qed.

(** Otherwise the subtraction overflows. *)
Lemma get_monthly_summary_overflow `{Interpreter} db uid months now :
  ¬ window_representable now months →
  crud.get_monthly_summary db uid months now = Py.Raise Py.OverflowError.
Proof.
  intros Hw. unfold crud.get_monthly_summary, datetime.timedelta_days.
  destruct (decide (-999999999 ≤ 30 * months ≤ 999999999)) as [Hdays|Hdays].
  - rewrite bool_decide_eq_true_2 by done. simpl.
    unfold datetime.sub, datetime.representable.
    rewrite bool_decide_eq_false_2; [done|]. intros Hstart. by apply Hw.
  - by rewrite bool_decide_eq_false_2.
Qed.

Lemma typed_expense rows :
  typed rows → not_of_type "income" rows = of_type "expense" rows.
Proof.
  unfold typed, not_of_type, of_type. induction 1 as [|t rows Ht _ IH]; [done|].
  rewrite !filter_cons, IH.
  destruct Ht as [Ht|Ht]; rewrite Ht; repeat case_decide; done.
Qed.

(** The entries of the summary, as the loop computes them: the second figure
    of a month is the running sum of the amounts of its rows that are not
    income. *)
Lemma monthly_summary_entries `{Interpreter} db uid months now :
  window_representable now months →
  let rows := filter (in_window now months) (owned_by uid db) in
  ∃ summary,
    crud.get_monthly_summary db uid months now = Py.Ok summary
    ∧ Sorted String.le (schemas.month <$> summary)
    ∧ NoDup (schemas.month <$> summary)
    ∧ (∀ m, m ∈ schemas.month <$> summary ↔ bucket m rows ≠ [])
    ∧ ∀ e, e ∈ summary →
        schemas.income e
        = running_sum
            (amounts (of_type "income" (bucket (schemas.month e) rows)))
        ∧ schemas.expenses e
          = running_sum
              (amounts (not_of_type "income" (bucket (schemas.month e) rows))).
Proof.
  intros Hw rows. rewrite get_monthly_summary_Ok by done. fold rows.
  pose proof (monthly_invariant_loop rows) as Hinv.
  set (monthly_data := foldl crud.monthly_step ∅ rows) in *.
  eexists. split; [reflexivity|].
  rewrite <- list_fmap_compose.
  change (schemas.month ∘ _) with (@fst string (float * float)).
  split; [apply sorted_items_keys_sorted|].
  split; [apply sorted_items_keys_NoDup|]. split.
  - intros m. specialize (Hinv m). split.
    + intros ([k d] & -> & Hin)%list_elem_of_fmap.
      apply elem_of_sorted_items in Hin. simpl in *.
      rewrite Hin in Hinv. tauto.
    + intros Hne. destruct (monthly_data !! m) as [d|] eqn:E; [|done].
      apply list_elem_of_fmap. exists (m, d). split; [done|].
      by apply elem_of_sorted_items.
  - intros e ([k d] & -> & Hin)%list_elem_of_fmap. simpl.
    apply elem_of_sorted_items in Hin.
    specialize (Hinv k). rewrite Hin in Hinv. tauto.
Qed.

(** C4, as the code has it.  When the start of the window, [now] less
    [months] × 30 days, is a datetime, the summary is made from the user's
    transactions whose occurrence date lies in the window: there is one entry
    per month that has such transactions and none for any other month, the
    entries are in ascending order of the month key, each has the running
    sum (from 0, each addition rounded, the rows in the order of the table)
    of the amounts of the income rows of its month and, when every row of
    the month is of type income or expense, the running sum of the amounts
    of its expense rows. *)
Theorem monthly_summary_buckets `{Interpreter} (db : Session)
    (user_id months : Z) (now : datetime.t) :
  window_representable now months →
  monthly typed db user_id months now
          (crud.get_monthly_summary db user_id months now).
Proof.
  intros Hw.
  destruct (monthly_summary_entries db user_id months now Hw)
    as (summary & Houtcome & Hsorted & Hnodup & Hkeys & Hsums).
  exists summary. repeat (split; [done|]).
  intros e He. destruct (Hsums e He) as [Hincome Hother].
  split; [done|]. intros Htyped. by rewrite <- typed_expense.
Qed.

Section monthly_scenario.
#[local] Existing Instances example.cpython example.sqlite.

(** Two months back from February 2024 in the worked store. *)
Lemma monthly_summary_buckets_witness :
  monthly typed example.db 1 2 example.now
          (crud.get_monthly_summary example.db 1 2 example.now).
Proof.
  apply monthly_summary_buckets.
  unfold window_representable. vm_compute.
  repeat split; discriminate.
Defined.

(** C4 as stated fails: it holds for no number of months whose window starts
    before year 1, such as 30000 months counted back from February 2024; the
    subtraction overflows and the call returns nothing. *)
Lemma monthly_summary_buckets_counterexample :
  ¬ monthly (λ _, True) example.db 1 30000 example.now
            (crud.get_monthly_summary example.db 1 30000 example.now).
Proof.
  intros (summary & Houtcome & _).
  vm_compute in Houtcome. discriminate Houtcome.
Qed.

Example monthly_summary_overflow :
  crud.get_monthly_summary example.db 1 30000 example.now
  = Py.Raise Py.OverflowError
  ∧ status_of (main.get_monthly_summary example.db (Some 30000)
                 example.alice example.now) = 500.
Proof. split; reflexivity. Qed.

(** The second figure of a month counts every row that is not income: with a
    transfer of 25 in February the entry shows expenses 85, where the expense
    rows of the month add up to 60. *)
Example monthly_summary_third_type :
  ¬ monthly (λ _, True) example.transfer25_db 1 2 example.now
            (crud.get_monthly_summary example.transfer25_db 1 2 example.now).
Proof.
  intros (summary & Houtcome & _ & _ & _ & Hsums).
  vm_compute in Houtcome. injection Houtcome as <-.
  destruct (Hsums _ (list_elem_of_further _ _ _ (list_elem_of_here _ _)))
    as [_ Hexpenses].
  specialize (Hexpenses I). by_float_evaluation Hexpenses.
Qed.

(** The summary of section 8: January with income 100 and expenses 40, then
    February with income 0 and expenses 60. *)
Example monthly_summary_scenario :
  crud.get_monthly_summary example.db 1 2 example.now
  = Py.Ok [schemas.mkMonthlyData "2024-01" 100 40;
           schemas.mkMonthlyData "2024-02" 0 60].
Proof. vm_compute. reflexivity. Qed.

(** The figures of a month are running sums of floats: expenses of 0.1, 0.2
    and -0.3 in February add up to 2^-54. *)
Example monthly_summary_small :
  crud.get_monthly_summary example.small_db 1 2 example.now
  = Py.Ok [schemas.mkMonthlyData "2024-02" 0 0x1p-54].
Proof. vm_compute. reflexivity. Qed.

End monthly_scenario.

(** ** Signup and login *)

Section signup.
Context `{auth : Auth} `{!AuthSpec auth}.

Lemma get_user_by_email_None db email :
  crud.get_user_by_email db email = None ↔ email ∉ User.email <$> users db.
Proof.
  unfold crud.get_user_by_email. rewrite head_None. split.
  - intros Hnil (u & -> & Hu)%list_elem_of_fmap.
    assert (Hin : u ∈ filter (λ u', User.email u' = User.email u) (users db))
      by (by apply list_elem_of_filter).
    rewrite Hnil in Hin. by apply elem_of_nil in Hin.
  - intros Hnotin. induction (users db) as [|u us IH]; [done|].
    rewrite fmap_cons, not_elem_of_cons in Hnotin. destruct Hnotin as [Hu Hus].
    rewrite filter_cons, decide_False by done. by apply IH.
Qed.

Lemma get_user_by_email_registered db email :
  email ∈ User.email <$> users db →
  is_Some (crud.get_user_by_email db email).
Proof.
  intros Hin. destruct (crud.get_user_by_email db email) eqn:E; [done|].
  by apply get_user_by_email_None in E.
Qed.

Lemma get_user_by_email_new db email db_user :
  crud.get_user_by_email db email = None → User.email db_user = email →
  crud.get_user_by_email (mkSession (users db ++ [db_user]) (transactions db))
                         email
  = Some db_user.
Proof.
  unfold crud.get_user_by_email. rewrite head_None. intros Hnil Hemail. simpl.
  rewrite filter_app, Hnil. simpl. rewrite filter_cons, decide_True by done.
  done.
Qed.

(** C8.  A signup whose email is that of a registered user is rejected with
    status 400 and the store is left as it is.  A signup whose email is not
    registered succeeds and appends the account; after it, a login with the
    email and the password of the signup succeeds, a login with any other
    password is rejected with status 401, and a second signup with the same
    email is rejected with status 400. *)
Theorem signup_login (db : Session) (user : schemas.UserCreate)
    (now : datetime.t) (salt : string) :
  (schemas.uc_email user ∈ User.email <$> users db →
   main.signup db user now salt
   = (HTTPException 400 "Email already registered", db))
  ∧ (schemas.uc_email user ∉ User.email <$> users db →
     ∃ db_user db',
       main.signup db user now salt = (Return db_user, db')
       ∧ users db' = users db ++ [db_user]
       ∧ transactions db' = transactions db
       ∧ User.email db_user = schemas.uc_email user
       ∧ main.login db' (schemas.uc_email user) (schemas.uc_password user)
         = Return (create_access_token (schemas.uc_email user))
       ∧ (∀ password, password ≠ schemas.uc_password user →
            main.login db' (schemas.uc_email user) password
            = HTTPException 401 "Incorrect email or password")
       ∧ ∀ again now' salt',
           schemas.uc_email again = schemas.uc_email user →
           main.signup db' again now' salt'
           = (HTTPException 400 "Email already registered", db')).
Proof.
  split.
  - intros [u Hu]%get_user_by_email_registered.
    unfold main.signup. by rewrite Hu.
  - intros Hnew. pose proof Hnew as Hnone%get_user_by_email_None.
    unfold main.signup, crud.create_user. rewrite Hnone.
    rewrite decide_False by done.
    eexists _, _. split; [reflexivity|]. simpl.
    repeat (split; [reflexivity|]).
    set (db_user := User.mk _ _ _ _ _ _).
    assert (Hfind :
      crud.get_user_by_email
        (mkSession (users db ++ [db_user]) (transactions db))
        (schemas.uc_email user) = Some db_user)
      by (by apply get_user_by_email_new).
    split; [|split].
    + unfold main.login, crud.authenticate_user. rewrite Hfind. simpl.
      by rewrite (proj2 (verify_password_hash salt _ _) eq_refl).
    + intros password Hwrong.
      unfold main.login, crud.authenticate_user. rewrite Hfind. simpl.
      destruct (verify_password password _) eqn:E; [|done].
      by apply verify_password_hash in E.
    + intros again now' salt' Hsame.
      unfold main.signup. by rewrite Hsame, Hfind.
Qed.

End signup.

(** Carol signs up to the worked store, then logs in. *)
Lemma signup_login_witness :
  ∃ db_user db',
    main.signup (auth := example.plain_auth) example.db example.carol
                example.now "salt"
    = (Return db_user, db')
    ∧ main.login (auth := example.plain_auth) db' "carol@example.com" "secret"
      = Return "carol@example.com"
    ∧ main.login (auth := example.plain_auth) db' "carol@example.com" "guess"
      = HTTPException 401 "Incorrect email or password".
Proof.
  assert (Hspec : AuthSpec example.plain_auth)
    by (constructor; intros salt password candidate; apply String.eqb_eq).
  assert (Hnew : schemas.uc_email example.carol
                 ∉ User.email <$> users example.db)
    by by_evaluation.
  destruct (proj2 (signup_login (auth := example.plain_auth) example.db
                     example.carol example.now "salt") Hnew)
    as (db_user & db' & Hsignup & _ & _ & _ & Hlogin & Hwrong & _).
  exists db_user, db'. split; [exact Hsignup|]. split; [exact Hlogin|].
  apply Hwrong. discriminate.
Defined.


(** ** Rows of a third type *)

Lemma filter_other_ids (l : list Transaction.t) (k : Z) :
  k ∉ Transaction.id <$> l → filter (λ r, Transaction.id r ≠ k) l = l.
Proof.
  induction l as [|y l IH]; [done|].
  rewrite fmap_cons, not_elem_of_cons. intros [Hy Hl].
  rewrite filter_cons_True by done. by rewrite IH.
Qed.

(** Taking the row of [t] out of a table takes nothing out of a selection
    that does not hold [t], and one row out of one that does. *)
Lemma filter_without (P : Transaction.t → Prop) `{∀ r, Decision (P r)}
    (l : list Transaction.t) (t : Transaction.t) :
  NoDup (Transaction.id <$> l) → t ∈ l → ¬ P t →
  filter P (filter (λ r, Transaction.id r ≠ Transaction.id t) l) = filter P l.
Proof.
  intros Hl Ht HP. revert Hl Ht.
  induction l as [|x l IH]; [by intros _ ?%elem_of_nil|].
  rewrite fmap_cons, NoDup_cons, elem_of_cons. intros [Hx Hl] [->|Ht].
  - rewrite (filter_cons_False (λ r, Transaction.id r ≠ _)) by (by intros ?).
    by rewrite (filter_other_ids l _ Hx), filter_cons_False.
  - assert (Hne : Transaction.id x ≠ Transaction.id t).
    { intros Hid. apply Hx. rewrite Hid. by apply list_elem_of_fmap_2. }
    rewrite (filter_cons_True (λ r, Transaction.id r ≠ _)) by done.
    rewrite !filter_cons. by rewrite (IH Hl Ht).
Qed.

Lemma length_without (P : Transaction.t → Prop) `{∀ r, Decision (P r)}
    (l : list Transaction.t) (t : Transaction.t) :
  NoDup (Transaction.id <$> l) → t ∈ l → P t →
  length (filter P l)
  = S (length (filter P (filter (λ r, Transaction.id r ≠ Transaction.id t) l))).
Proof.
  intros Hl Ht HP. revert Hl Ht.
  induction l as [|x l IH]; [by intros _ ?%elem_of_nil|].
  rewrite fmap_cons, NoDup_cons, elem_of_cons. intros [Hx Hl] [->|Ht].
  - rewrite (filter_cons_False (λ r, Transaction.id r ≠ _)) by (by intros ?).
    by rewrite (filter_other_ids l _ Hx), filter_cons_True.
  - assert (Hne : Transaction.id x ≠ Transaction.id t).
    { intros Hid. apply Hx. rewrite Hid. by apply list_elem_of_fmap_2. }
    rewrite (filter_cons_True (λ r, Transaction.id r ≠ _)) by done.
    rewrite !filter_cons.
    destruct (decide (P x)); simpl; by rewrite (IH Hl Ht).
Qed.

Lemma filter_none {A} (P : A → Prop) `{∀ x, Decision (P x)} (l : list A) :
  (∀ x, x ∈ l → ¬ P x) → filter P l = [].
Proof.
  induction l as [|x l IH]; intros Hl; [done|].
  rewrite filter_cons_False by (apply Hl; left).
  apply IH. intros y Hy. apply Hl. by right.
Qed.

(** The running sum over a list adds the amount of a row when it reaches the
    row. *)
Lemma running_sum_split before t after :
  running_sum (amounts (before ++ t :: after))
  = foldl PrimFloat.add
      (running_sum (amounts before) + Transaction.amount t)%float
      (amounts after).
Proof. unfold running_sum, amounts. by rewrite fmap_app, foldl_app. Qed.

(** The rows behind the second figure of a month, read from the rows of the
    owner that are not income. *)
Lemma month_other_rows `{Interpreter} db uid now months m :
  not_of_type "income"
    (bucket m (filter (in_window now months) (owned_by uid db)))
  = bucket m (filter (in_window now months)
                     (not_of_type "income" (owned_by uid db))).
Proof.
  unfold not_of_type, bucket. rewrite !list_filter_filter.
  apply list_filter_iff. intros r. tauto.
Qed.

Lemma dashboard_totals `{Interpreter} db uid :
  let stats := crud.get_dashboard_stats db uid in
  schemas.total_income stats
  = py_sum (amounts (filter (λ r, Transaction.transaction_type r = "income"
                                  ∧ Transaction.user_id r = uid)
                            (transactions db)))
  ∧ schemas.total_expenses stats
    = py_sum (amounts (filter (λ r, Transaction.transaction_type r = "expense"
                                    ∧ Transaction.user_id r = uid)
                              (transactions db))).
Proof. simpl. by rewrite !list_filter_filter. Qed.

(** C10, as the code has it.  For a stored transaction [t] of a third type
    whose occurrence date lies in the window of the monthly summary: the
    summary has an entry for the month of [t], and the running sum that
    gives its expenses adds the amount of [t] when it reaches [t] among the
    rows of the month that are not income; the dashboard reports the income
    and the expenses it reports without [t], and counts [t]; when [t] is the
    only transaction of its owner that is not income, the summary reports
    0 plus its amount as the expenses of its month and the dashboard reports
    no expenses. *)
Theorem third_type_reports `{Interpreter} (db : Session) (t : Transaction.t)
    (months : Z) (now : datetime.t) :
  primary_key db →
  t ∈ transactions db →
  third_type t →
  window_representable now months →
  in_window now months t →
  third_type_treatment db t months now.
Proof.
  intros Hpk Ht [Hincome Hexpense] Hw Htw. unfold third_type_treatment.
  set (uid := Transaction.user_id t) in *.
  set (rows := filter (in_window now months) (owned_by uid db)).
  assert (Htrow : t ∈ rows).
  { apply list_elem_of_filter. split; [done|]. by apply list_elem_of_filter. }
  destruct Htw as (date & Hdate & Hrange).
  set (m := datetime.strftime_Ym date).
  assert (Hm : month_of t = Some m) by (unfold month_of; by rewrite Hdate).
  rewrite get_monthly_summary_Ok by done. fold rows.
  pose proof (monthly_invariant_loop rows m) as Hinv.
  set (monthly_data := foldl crud.monthly_step ∅ rows) in *.
  assert (Hbucket : t ∈ not_of_type "income" (bucket m rows)).
  { apply list_elem_of_filter. split; [done|]. by apply list_elem_of_filter. }
  destruct (monthly_data !! m) as [d|] eqn:Hd.
  2: { exfalso. apply list_elem_of_filter in Hbucket as [_ Hin].
       rewrite Hinv in Hin. by apply elem_of_nil in Hin. }
  destruct Hinv as (_ & _ & Hother).
  destruct (dashboard_totals db uid) as [Hinc Hexp].
  destruct (dashboard_totals (without t db) uid) as [Hinc' Hexp'].
  eexists _, (schemas.mkMonthlyData m d.1 d.2).
  split; [reflexivity|].
  split; [|split; [|split; [|split; [|split; [|split]]]]].
  - apply list_elem_of_fmap. exists (m, d). split; [done|].
    by apply elem_of_sorted_items.
  - done.
  - cbn [schemas.expenses schemas.month].
    apply list_elem_of_split in Hbucket as (before & after & Hsplit).
    exists before, after. split; [done|].
    by rewrite Hother, Hsplit, running_sum_split.
  - rewrite Hinc, Hinc'. simpl. by rewrite filter_without by tauto.
  - rewrite Hexp, Hexp'. simpl. by rewrite filter_without by tauto.
  - simpl. by apply length_without.
  - intros Honly. cbn [schemas.expenses schemas.month]. split.
    + rewrite Hother. unfold rows. rewrite month_other_rows, Honly.
      assert (Htw : in_window now months t) by (by exists date).
      unfold bucket.
      rewrite (filter_cons_True (in_window now months)) by done.
      by rewrite filter_nil, filter_cons_True by done.
    + rewrite Hexp.
      rewrite (filter_none _ (transactions db)); [apply py_sum_nil|].
      intros r Hr [Hty Hu].
      assert (Hin : r ∈ not_of_type "income" (owned_by uid db)).
      { apply list_elem_of_filter. split; [by rewrite Hty|].
        by apply list_elem_of_filter. }
      rewrite Honly in Hin. apply list_elem_of_singleton in Hin as ->. done.
Qed.

Section third_type_scenario.
#[local] Existing Instances example.cpython example.sqlite.

(** A transfer of 25 added to Alice's rows in the worked store. *)
Lemma third_type_reports_witness :
  third_type_treatment example.transfer25_db example.transfer25_row 2
                       example.now.
Proof.
  assert (Hpk : primary_key example.transfer25_db)
    by (unfold primary_key; by_evaluation).
  assert (Ht : example.transfer25_row ∈ transactions example.transfer25_db)
    by (vm_compute; repeat constructor).
  assert (Hthird : third_type example.transfer25_row)
    by (split; discriminate).
  assert (Hw : window_representable example.now 2)
    by (unfold window_representable; vm_compute; repeat split; discriminate).
  assert (Htw : in_window example.now 2 example.transfer25_row)
    by by_evaluation.
  exact (third_type_reports example.transfer25_db example.transfer25_row 2
           example.now Hpk Ht Hthird Hw Htw).
Defined.

(** C10 as stated fails: the two reports of expenses need not disagree.  A
    transaction of a third type with amount 0 adds 0 to the expenses of its
    month, and both reports show expenses 0. *)
Lemma third_type_reports_counterexample :
  ¬ (example.transfer_row ∈ transactions example.transfer_db →
     third_type example.transfer_row →
     in_window example.now 2 example.transfer_row →
     reports_disagree example.transfer_db 1 2 example.now).
Proof.
  intros Hclaim.
  destruct Hclaim as (summary & Houtcome & Hdisagree).
  - vm_compute. repeat constructor.
  - split; discriminate.
  - by_evaluation.
  - vm_compute in Houtcome. injection Houtcome as <-.
    apply Hdisagree. exists [0%Q], 0%Q.
    split; [vm_compute; reflexivity|].
    split; [vm_compute; reflexivity|]. reflexivity.
Qed.

(** With amount 25 the reports do disagree: February shows expenses 85 in
    the summary, which adds up to 125, and the dashboard shows 100. *)
Example third_type_disagreement :
  crud.get_monthly_summary example.transfer25_db 1 2 example.now
  = Py.Ok [schemas.mkMonthlyData "2024-01" 100 40;
           schemas.mkMonthlyData "2024-02" 0 85]
  ∧ crud.get_dashboard_stats example.transfer25_db 1
    = schemas.mkDashboardStats 100 100 0 4.
Proof. vm_compute. split; reflexivity. Qed.

(** A gap in floats is not the amount: with an expense of 0.1 and a
    transfer of 0.2 in the same month the summary shows expenses
    0.30000000000000004 and the dashboard 0.1; with an expense of 1e20 and
    a transfer of 1 both show 1e20. *)
Example third_type_rounding :
  let store amount other :=
    mkSession []
      [Transaction.mk 1 amount "food" None "expense"
                      (Some (datetime.make 2024 2 1 0 0 0)) example.now 1;
       Transaction.mk 2 other "savings" None "transfer"
                      (Some (datetime.make 2024 2 4 0 0 0)) example.now 1] in
  crud.get_monthly_summary (store 0.1 0.2)%float 1 2 example.now
  = Py.Ok [schemas.mkMonthlyData "2024-02" 0 0.30000000000000004]
  ∧ schemas.total_expenses
      (crud.get_dashboard_stats (store 0.1 0.2)%float 1) = 0.1%float
  ∧ crud.get_monthly_summary (store 1e20 1)%float 1 2 example.now
    = Py.Ok [schemas.mkMonthlyData "2024-02" 0 1e20]
  ∧ schemas.total_expenses
      (crud.get_dashboard_stats (store 1e20 1)%float 1) = 1e20%float.
Proof. vm_compute. repeat split. Qed.

End third_type_scenario.

(** * Further properties of the repository *)

(** ** Creating, reading back, deleting *)

Lemma get_transaction_app_new l us t uid :
  Transaction.id t ∉ Transaction.id <$> l →
  crud.get_transaction (mkSession us (l ++ [t])) (Transaction.id t) uid
  = if decide (Transaction.user_id t = uid) then Some t else None.
Proof.
  intros Hfresh. unfold crud.get_transaction. simpl. rewrite filter_app.
  assert (Hnone : filter (λ r, Transaction.id r = Transaction.id t
                               ∧ Transaction.user_id r = uid) l = []).
  { apply filter_none. intros r Hr [Hid _]. apply Hfresh. rewrite <- Hid.
    by apply list_elem_of_fmap_2. }
  rewrite Hnone. simpl. rewrite filter_cons.
  destruct (decide (Transaction.user_id t = uid)) as [Hu|Hu].
  - by rewrite decide_True.
  - by rewrite decide_False by tauto.
Qed.

Lemma create_transaction_inv db request user_id now t db' :
  crud.create_transaction db request user_id now = Py.Ok (t, db') →
  db' = mkSession (users db) (transactions db ++ [t])
  ∧ (Transaction.id t ∉ Transaction.id <$> transactions db)
  ∧ Transaction.user_id t = user_id
  ∧ sql_real (schemas.tc_amount request) = Some (Transaction.amount t)
  ∧ Transaction.category t = schemas.tc_category request
  ∧ Transaction.description t = schemas.tc_description request
  ∧ Transaction.transaction_type t = schemas.tc_transaction_type request
  ∧ Transaction.date t = Some (schemas.tc_date request).
Proof.
  unfold crud.create_transaction.
  destruct (sql_real _) as [amount|]; [|done]. intros [= <- <-].
  repeat split. apply next_id_fresh.
Qed.

(** X1.  The two outcomes of a creation.  A request whose amount is NaN is
    refused with an integrity error.  Any other request returns a record
    that has an id no stored row has, the owner and the fields of the
    request (the amount as the table holds it), and is stored after the rows
    there were; the record is read back by its id as its owner, and is
    absent for any other user. *)
Theorem create_transaction_outcomes (db : Session)
    (request : schemas.TransactionCreate) (user_id : Z) (now : datetime.t) :
  let outcome := crud.create_transaction db request user_id now in
  (Py.is_nan (schemas.tc_amount request) = true →
   outcome = Py.Raise Py.IntegrityError)
  ∧ (Py.is_nan (schemas.tc_amount request) = false →
     ∃ t db',
       outcome = Py.Ok (t, db')
       ∧ users db' = users db
       ∧ transactions db' = transactions db ++ [t]
       ∧ (Transaction.id t ∉ Transaction.id <$> transactions db)
       ∧ Transaction.user_id t = user_id
       ∧ Transaction.amount t = sql_held (schemas.tc_amount request)
       ∧ Transaction.category t = schemas.tc_category request
       ∧ Transaction.description t = schemas.tc_description request
       ∧ Transaction.transaction_type t = schemas.tc_transaction_type request
       ∧ Transaction.date t = Some (schemas.tc_date request)
       ∧ crud.get_transaction db' (Transaction.id t) user_id = Some t
       ∧ ∀ other, other ≠ user_id →
           crud.get_transaction db' (Transaction.id t) other = None).
Proof.
  simpl. split.
  - intros Hnan. unfold crud.create_transaction, sql_real. by rewrite Hnan.
  - intros Hnan.
    destruct (crud.create_transaction db request user_id now)
      as [[t db']|] eqn:Hcreate.
    2: { unfold crud.create_transaction, sql_real in Hcreate.
         by rewrite Hnan in Hcreate. }
    apply create_transaction_inv in Hcreate
      as (-> & Hfresh & Hu & Ha & Hc & Hd & Hy & Hdate).
    unfold sql_real in Ha. rewrite Hnan in Ha. injection Ha as Ha.
    exists t, (mkSession (users db) (transactions db ++ [t])).
    repeat (split; [done|]). split.
    + rewrite get_transaction_app_new by done. by rewrite decide_True.
    + intros other Hother. rewrite get_transaction_app_new by done.
      rewrite decide_False; [done|congruence].
Qed.

(** X2.  Deleting a transaction right after creating it gives back the
    created record and the store as it was before the creation. *)
Theorem create_then_delete (db db' : Session)
    (request : schemas.TransactionCreate) (user_id : Z) (now : datetime.t)
    (t : Transaction.t) :
  crud.create_transaction db request user_id now = Py.Ok (t, db') →
  crud.delete_transaction db' (Transaction.id t) user_id = (Some t, db).
Proof.
  intros (-> & Hfresh & Hu & _)%create_transaction_inv.
  unfold crud.delete_transaction.
  rewrite get_transaction_app_new by done.
  rewrite decide_True by done. cbn [users transactions]. f_equal.
  rewrite filter_app, filter_other_ids by done.
  rewrite filter_cons_False by (by intros ?). rewrite filter_nil, app_nil_r.
  by destruct db.
Qed.

(** A transfer of 25 created in the worked store, then deleted. *)
Lemma create_then_delete_witness :
  crud.delete_transaction example.transfer25_db 5 1
  = (Some example.transfer25_row, example.db).
Proof.
  apply (create_then_delete example.db example.transfer25_db
           example.transfer25 1 example.now example.transfer25_row).
  vm_compute. reflexivity.
Defined.

(** ** Deleting a stored transaction *)

Lemma filter_Forall {A} (P : A → Prop) `{∀ x, Decision (P x)} (l : list A) :
  Forall P l → filter P l = l.
Proof.
  induction 1 as [|x l Hx _ IH]; [done|].
  by rewrite filter_cons_True, IH.
Qed.

(** X3.  In a store with unique ids, the owner's delete of a stored
    transaction returns that record and removes its row and no other; a
    second delete of the same id finds nothing and changes nothing. *)
Theorem delete_removes_exactly (db : Session) (t : Transaction.t) :
  primary_key db → t ∈ transactions db →
  let deleted :=
    crud.delete_transaction db (Transaction.id t) (Transaction.user_id t) in
  deleted.1 = Some t
  ∧ users deleted.2 = users db
  ∧ (∀ r, r ∈ transactions deleted.2 ↔ r ∈ transactions db ∧ r ≠ t)
  ∧ S (length (transactions deleted.2)) = length (transactions db)
  ∧ crud.delete_transaction deleted.2 (Transaction.id t)
                            (Transaction.user_id t)
    = (None, deleted.2).
Proof.
  intros Hpk Ht deleted. unfold deleted, crud.delete_transaction.
  rewrite get_transaction_owned by done. cbn [fst snd users transactions].
  split; [done|]. split; [done|]. split; [|split].
  - intros r. rewrite list_elem_of_filter. split.
    + intros [Hid Hr]. split; [done|]. congruence.
    + intros [Hr Hne]. split; [|done]. intros Hid. apply Hne.
      by eapply primary_key_inj.
  - symmetry. rewrite <- (filter_Forall (λ _, True) (transactions db))
      at 1 by (by apply Forall_true).
    rewrite (length_without (λ _, True) (transactions db) t Hpk Ht I).
    by rewrite (filter_Forall (λ _, True)) by (by apply Forall_true).
  - assert (Hgone : crud.get_transaction
        (mkSession (users db)
           (filter (λ r, Transaction.id r ≠ Transaction.id t)
                   (transactions db)))
        (Transaction.id t) (Transaction.user_id t) = None).
    { apply get_transaction_None. simpl. intros x Hx [Hxid _].
      by apply list_elem_of_filter in Hx as [Hne _]. }
    by rewrite Hgone.
Qed.

(** Alice's salary in the worked store. *)
Lemma delete_removes_exactly_witness :
  (crud.delete_transaction example.db 1 1).1 = Some example.salary_row
  ∧ S (length (transactions (crud.delete_transaction example.db 1 1).2))
    = length (transactions example.db).
Proof.
  assert (Hpk : primary_key example.db) by (unfold primary_key; by_evaluation).
  assert (Ht : example.salary_row ∈ transactions example.db)
    by (vm_compute; repeat constructor).
  pose proof (delete_removes_exactly example.db example.salary_row Hpk Ht)
    as (H1 & _ & _ & H2 & _).
  split; [exact H1|exact H2].
Defined.

(** ** Updating a stored transaction *)

Lemma set_not_null_again {A} (old new : A) field :
  crud.set_not_null old field = Py.Ok new →
  crud.set_not_null new field = Py.Ok new.
Proof. destruct field as [[v|]|]; simpl; congruence. Qed.

Lemma set_real_not_null_again (old new : float) field :
  crud.set_real_not_null old field = Py.Ok new →
  crud.set_real_not_null new field = Py.Ok new.
Proof. destruct field as [[v|]|]; simpl; congruence. Qed.

Lemma set_nullable_again {A} (old : option A) field :
  crud.set_nullable (crud.set_nullable old field) field
  = crud.set_nullable old field.
Proof. by destruct field. Qed.

(** X4.  In a store with unique ids, a transaction that an update returned
    is the one read back afterwards by the same id and owner, and applying
    the same patch once more returns the same record and leaves the store as
    the first update left it. *)
Theorem update_then_get (db db' : Session) (transaction_id user_id : Z)
    (patch : schemas.TransactionUpdate) (t' : Transaction.t) :
  primary_key db →
  crud.update_transaction db transaction_id patch user_id
  = Py.Ok (Some t', db') →
  crud.get_transaction db' transaction_id user_id = Some t'
  ∧ crud.update_transaction db' transaction_id patch user_id
    = Py.Ok (Some t', db').
Proof.
  intros Hpk Hupdate.
  pose proof (primary_key_update _ _ _ _ _ _ Hpk Hupdate) as Hpk'.
  unfold crud.update_transaction in Hupdate.
  destruct (crud.get_transaction db transaction_id user_id) as [t|] eqn:Hget;
    [|done].
  apply get_transaction_Some in Hget as (Ht & Hid & Huser).
  destruct (crud.set_real_not_null _ (schemas.tu_amount _)) as [a|] eqn:Ha;
    [|done].
  destruct (crud.set_not_null _ (schemas.tu_category _)) as [c|] eqn:Hc;
    [|done].
  destruct (crud.set_not_null _ (schemas.tu_transaction_type _)) as [y|]
    eqn:Hy; [|done].
  simpl in Hupdate. injection Hupdate as <- <-.
  set (t' := Transaction.mk _ _ _ _ _ _ _ _) in *.
  set (db' := mkSession _ _) in *.
  assert (Ht' : t' ∈ transactions db').
  { simpl. apply list_elem_of_fmap. exists t. split; [|done].
    by rewrite decide_True. }
  assert (Hget' : crud.get_transaction db' transaction_id user_id = Some t').
  { rewrite <- Hid, <- Huser. by apply (get_transaction_owned db' t'). }
  split; [done|].
  unfold crud.update_transaction. rewrite Hget'.
  cbn [Transaction.amount Transaction.category Transaction.transaction_type
       Transaction.description Transaction.date Transaction.id
       Transaction.created_at Transaction.user_id t'].
  rewrite (set_real_not_null_again _ _ _ Ha), (set_not_null_again _ _ _ Hc),
    (set_not_null_again _ _ _ Hy), !set_nullable_again.
  simpl. fold t'. do 2 f_equal. unfold db' at 1. f_equal.
  exact (replace_by_itself (transactions db') t' Hpk' Ht').
Qed.

(** Raising the amount of Alice's salary in the worked store, twice. *)
Lemma update_then_get_witness :
  ∃ t' db',
    crud.update_transaction example.db 1 example.raise_amount 1
    = Py.Ok (Some t', db')
    ∧ crud.get_transaction db' 1 1 = Some t'
    ∧ crud.update_transaction db' 1 example.raise_amount 1
      = Py.Ok (Some t', db').
Proof.
  assert (Hpk : primary_key example.db) by (unfold primary_key; by_evaluation).
  eexists _, _. split; [vm_compute; reflexivity|].
  apply (update_then_get example.db); [exact Hpk|vm_compute; reflexivity].
Defined.



(** X6.  Creating, updating and deleting keep the ids of the stored
    transactions unique. *)
Theorem repository_keeps_primary_key (db : Session) :
  primary_key db →
  (∀ request user_id now r db',
     crud.create_transaction db request user_id now = Py.Ok (r, db') →
     primary_key db')
  ∧ (∀ transaction_id patch user_id r db',
       crud.update_transaction db transaction_id patch user_id
       = Py.Ok (r, db') →
       primary_key db')
  ∧ (∀ transaction_id user_id,
       primary_key (crud.delete_transaction db transaction_id user_id).2).
Proof.
  intros Hpk. split; [|split].
  - intros ? ? ? r db' Hcreate. by eapply primary_key_create.
  - intros ? ? ? r db' Hupdate. by eapply primary_key_update.
  - intros. by apply primary_key_delete.
Qed.

(** The worked store, after a delete. *)
Lemma repository_keeps_primary_key_witness :
  primary_key (crud.delete_transaction example.db 1 1).2.
Proof.
  assert (Hpk : primary_key example.db) by (unfold primary_key; by_evaluation).
  apply (proj2 (proj2 (repository_keeps_primary_key example.db Hpk))).
Defined.

(** ** Pages of a listing *)

(** X7.  Pages join up: for a skip and two limits that are not negative and
    whose sums are 64-bit integers, the page of [limit1] rows at [skip]
    followed by the page of [limit2] rows at [skip + limit1] is the page of
    [limit1 + limit2] rows at [skip]. *)
Theorem get_transactions_pages (db : Session) (user_id skip limit1 limit2 : Z)
    (category transaction_type : option string)
    (start_date end_date : option datetime.t) :
  0 ≤ skip → 0 ≤ limit1 → 0 ≤ limit2 →
  skip + limit1 < 2 ^ 63 → limit1 + limit2 < 2 ^ 63 →
  ∃ page1 page2,
    crud.get_transactions db user_id skip limit1 category transaction_type
                          start_date end_date
    = Py.Ok page1
    ∧ crud.get_transactions db user_id (skip + limit1) limit2 category
                            transaction_type start_date end_date
      = Py.Ok page2
    ∧ crud.get_transactions db user_id skip (limit1 + limit2) category
                            transaction_type start_date end_date
      = Py.Ok (page1 ++ page2).
Proof.
  intros Hskip Hlimit1 Hlimit2 Hsum1 Hsum2.
  rewrite !get_transactions_Ok by (unfold int64; lia).
  eexists _, _. split; [reflexivity|]. split; [reflexivity|]. f_equal.
  rewrite !sql_limit_take by lia. unfold sql_offset.
  rewrite !Z2Nat.inj_add by lia.
  rewrite <- drop_drop. symmetry. apply take_take_drop.
Qed.

(** The three rows of Alice in the worked store, as a page of one row and a
    page of two. *)
Lemma get_transactions_pages_witness :
  ∃ page1 page2,
    crud.get_transactions example.db 1 0 1 None None None None = Py.Ok page1
    ∧ crud.get_transactions example.db 1 1 2 None None None None
      = Py.Ok page2
    ∧ crud.get_transactions example.db 1 0 3 None None None None
      = Py.Ok (page1 ++ page2).
Proof.
  apply (get_transactions_pages example.db 1 0 1 2); lia.
Defined.

(** X8.  In a store with unique ids no listing shows a transaction twice. *)
Theorem get_transactions_NoDup (db : Session) (user_id skip limit : Z)
    (category transaction_type : option string)
    (start_date end_date : option datetime.t) (rows : list Transaction.t) :
  primary_key db →
  crud.get_transactions db user_id skip limit category transaction_type
                        start_date end_date
  = Py.Ok rows →
  NoDup (Transaction.id <$> rows).
Proof.
  unfold primary_key. intros Hpk ->%get_transactions_inv.
  set (selected := filter _ (transactions db)).
  assert (Hselected : NoDup (Transaction.id <$> selected)).
  { eapply sublist_NoDup; [exact Hpk|].
    apply fmap_sublist, sublist_filter. }
  assert (Hsorted : NoDup (Transaction.id <$> merge_sort date_desc selected))
    by (by rewrite merge_sort_Permutation).
  eapply sublist_NoDup; [exact Hsorted|].
  apply fmap_sublist. etrans; [apply sql_limit_sublist|].
  apply sql_offset_sublist.
Qed.

(** The worked store. *)
Lemma get_transactions_NoDup_witness :
  NoDup (Transaction.id <$>
         [example.dinner_row; example.lunch_row; example.salary_row]).
Proof.
  apply (get_transactions_NoDup example.db 1 0 100 None None None None).
  - unfold primary_key. by_evaluation.
  - reflexivity.
Defined.

(** X9.  A date range whose start is after its end lists nothing. *)
Theorem get_transactions_empty_range (db : Session) (user_id skip limit : Z)
    (category transaction_type : option string)
    (start_date end_date : datetime.t) (rows : list Transaction.t) :
  end_date < start_date →
  crud.get_transactions db user_id skip limit category transaction_type
                        (Some start_date) (Some end_date)
  = Py.Ok rows →
  rows = [].
Proof.
  intros Hrange ->%get_transactions_inv.
  rewrite filter_none.
  - change (merge_sort date_desc []) with (@nil Transaction.t).
    unfold sql_limit, sql_offset. rewrite drop_nil.
    destruct (decide (limit < 0)); [done|apply take_nil].
  - intros t _ (_ & _ & _ & (d & Hd & Hafter) & (d' & Hd' & Hbefore)).
    simpl in *. rewrite Hd in Hd'. injection Hd' as <-. lia.
Qed.

(** February before January, in the worked store. *)
Lemma get_transactions_empty_range_witness :
  crud.get_transactions example.db 1 0 100 None None
    (Some (datetime.make 2024 2 1 0 0 0)) (Some (datetime.make 2024 1 1 0 0 0))
  = Py.Ok [].
Proof.
  destruct (crud.get_transactions example.db 1 0 100 None None
              (Some (datetime.make 2024 2 1 0 0 0))
              (Some (datetime.make 2024 1 1 0 0 0))) as [rows|e] eqn:E.
  - f_equal.
    apply (get_transactions_empty_range example.db 1 0 100 None None
             (datetime.make 2024 2 1 0 0 0) (datetime.make 2024 1 1 0 0 0));
      [vm_compute; reflexivity|exact E].
  - vm_compute in E. discriminate E.
Defined.

(** X10.  The listing without filters, from the first row and with a limit
    of at least the count of the dashboard, is a rearrangement of the user's
    rows: it has as many rows as the dashboard counts. *)
Theorem get_transactions_all `{Interpreter} (db : Session)
    (user_id limit : Z) :
  Z.of_nat (schemas.transaction_count (crud.get_dashboard_stats db user_id))
  ≤ limit →
  limit < 2 ^ 63 →
  ∃ rows,
    crud.get_transactions db user_id 0 limit None None None None = Py.Ok rows
    ∧ rows ≡ₚ owned_by user_id db
    ∧ length rows
      = schemas.transaction_count (crud.get_dashboard_stats db user_id).
Proof.
  change (schemas.transaction_count (crud.get_dashboard_stats db user_id))
    with (length (owned_by user_id db)).
  intros Hcount Hlimit.
  assert (Hperm :
    sql_limit limit (sql_offset 0 (merge_sort date_desc
      (filter (matches user_id None None None None) (transactions db))))
    ≡ₚ owned_by user_id db).
  { assert (Hrows : filter (matches user_id None None None None)
                           (transactions db) = owned_by user_id db).
    { apply list_filter_iff. intros t. unfold matches. simpl. tauto. }
    rewrite Hrows. unfold sql_offset.
    change (Z.to_nat 0) with 0%nat. rewrite drop_0.
    rewrite sql_limit_take by lia.
    rewrite take_ge; [apply merge_sort_Permutation|].
    rewrite merge_sort_Permutation. lia. }
  eexists. split; [|split; [exact Hperm|by rewrite Hperm]].
  by rewrite get_transactions_Ok by (unfold int64; lia).
Qed.

Section listing_scenario.
#[local] Existing Instances example.cpython example.sqlite.

(** Alice has three rows in the worked store. *)
Lemma get_transactions_all_witness :
  ∃ rows,
    crud.get_transactions example.db 1 0 100 None None None None = Py.Ok rows
    ∧ length rows = 3%nat.
Proof.
  destruct (get_transactions_all example.db 1 100) as (rows & Hrows & _ & Hn).
  - vm_compute. discriminate.
  - lia.
  - by exists rows.
Defined.

End listing_scenario.

(** X11.  The two outcomes of a listing: it returns when the limit and the
    skip are 64-bit integers, and raises an overflow error otherwise, which
    the endpoint answers with status 500. *)
Theorem get_transactions_outcomes (db : Session) (user_id skip limit : Z)
    (category transaction_type : option string)
    (start_date end_date : option datetime.t) :
  let outcome :=
    crud.get_transactions db user_id skip limit category transaction_type
                          start_date end_date in
  (int64 limit ∧ int64 skip ↔ ∃ rows, outcome = Py.Ok rows)
  ∧ (¬ (int64 limit ∧ int64 skip) ↔ outcome = Py.Raise Py.OverflowError)
  ∧ ∀ current_user,
      User.id current_user = user_id →
      ¬ (int64 limit ∧ int64 skip) →
      status_of (main.read_transactions db (Some skip) (Some limit) category
                   transaction_type start_date end_date current_user)
      = 500.
Proof.
  simpl. destruct (decide (int64 limit ∧ int64 skip)) as [[Hl Hs]|Hout].
  - rewrite get_transactions_Ok by done. split; [|split].
    + split; [eauto|done].
    + split; [tauto|done].
    + tauto.
  - pose proof (get_transactions_overflow db user_id skip limit category
                  transaction_type start_date end_date Hout) as Hraise.
    rewrite Hraise. split; [|split].
    + split; [done|]. by intros [? ?].
    + done.
    + intros current_user <- _. unfold main.read_transactions. simpl.
      by rewrite Hraise.
Qed.

(** ** Accounts and tokens *)

Section accounts.
Context `{auth : Auth}.

Lemma get_user_by_email_Some db email user :
  crud.get_user_by_email db email = Some user →
  user ∈ users db ∧ User.email user = email.
Proof.
  unfold crud.get_user_by_email. intros H%head_Some_elem_of.
  apply list_elem_of_filter in H. tauto.
Qed.

(** X12.  A signup never fails on the unique index of the users table: it
    answers 200 or 400, it leaves the transactions alone, and it keeps the
    emails of the users distinct. *)
Theorem signup_keeps_unique_emails (db : Session) (user : schemas.UserCreate)
    (now : datetime.t) (salt : string) :
  unique_emails db →
  let outcome := main.signup db user now salt in
  (status_of outcome.1 = 200 ∨ status_of outcome.1 = 400)
  ∧ transactions outcome.2 = transactions db
  ∧ unique_emails outcome.2.
Proof.
  unfold unique_emails. intros Hunique. unfold main.signup, crud.create_user.
  destruct (crud.get_user_by_email db (schemas.uc_email user)) as [u|] eqn:E.
  - simpl. auto.
  - apply get_user_by_email_None in E. rewrite decide_False by done. simpl.
    split; [auto|]. split; [done|].
    rewrite fmap_app. apply NoDup_app. split; [done|]. split.
    + intros e He ->%list_elem_of_singleton. done.
    + apply NoDup_singleton.
Qed.

(** X13.  A login returns a token only for a registered user with the given
    email whose stored hash verifies the given password, and the token is the
    one issued for that email; for an email that is not registered it answers
    401 whatever the password; it never answers anything but 200 or 401. *)
Theorem login_outcomes (db : Session) (username password : string) :
  (∀ token,
     main.login db username password = Return token →
     ∃ user,
       user ∈ users db
       ∧ User.email user = username
       ∧ verify_password password (User.hashed_password user) = true
       ∧ token = create_access_token username)
  ∧ (username ∉ User.email <$> users db →
     main.login db username password
     = HTTPException 401 "Incorrect email or password")
  ∧ (status_of (main.login db username password) = 200
     ∨ status_of (main.login db username password) = 401).
Proof.
  unfold main.login, crud.authenticate_user.
  destruct (crud.get_user_by_email db username) as [u|] eqn:E.
  - apply get_user_by_email_Some in E as [Hu Hemail].
    destruct (verify_password password (User.hashed_password u)) eqn:Hv;
      simpl.
    + split; [|split; [|by left]].
      * intros token [= <-]. exists u. by rewrite Hemail.
      * intros Hnot. exfalso. apply Hnot. rewrite <- Hemail.
        by apply list_elem_of_fmap_2.
    + split; [done|]. split; [done|by right].
  - simpl. split; [done|]. split; [done|by right].
Qed.

(** X14.  The bearer-token dependency returns a registered user or answers
    401, never anything else; and, when decoding a token gives back the email
    it was issued for, the token of a successful login resolves to the user
    of that login. *)
Theorem get_current_user_outcomes (decode_token : string → option string)
    (db : Session) :
  (∀ token user,
     main.get_current_user decode_token db token = Return user →
     user ∈ users db ∧ decode_token token = Some (User.email user))
  ∧ (∀ token,
       status_of (main.get_current_user decode_token db token) = 200
       ∨ status_of (main.get_current_user decode_token db token) = 401)
  ∧ ((∀ email, decode_token (create_access_token email) = Some email) →
     ∀ username password token,
       main.login db username password = Return token →
       ∃ user,
         main.get_current_user decode_token db token = Return user
         ∧ User.email user = username).
Proof.
  split; [|split].
  - intros token user. unfold main.get_current_user.
    destruct (decode_token token) as [email|]; [|done].
    destruct (crud.get_user_by_email db email) as [u|] eqn:E; [|done].
    intros [= <-]. apply get_user_by_email_Some in E as [Hu <-]. done.
  - intros token. unfold main.get_current_user.
    destruct (decode_token token) as [email|]; [|by right].
    destruct (crud.get_user_by_email db email); [by left|by right].
  - intros Hdecode username password token.
    unfold main.login, crud.authenticate_user, main.get_current_user.
    destruct (crud.get_user_by_email db username) as [u|] eqn:E; [|done].
    destruct (negb _); [done|]. intros [= <-].
    pose proof E as [_ Hemail]%get_user_by_email_Some.
    rewrite Hemail, Hdecode, E. by exists u.
Qed.

End accounts.

(** Carol signs up to the worked store. *)
Lemma signup_keeps_unique_emails_witness :
  unique_emails
    (main.signup (auth := example.plain_auth) example.db example.carol
                 example.now "salt").2.
Proof.
  assert (Hunique : unique_emails example.db)
    by (unfold unique_emails; by_evaluation).
  exact (proj2 (proj2 (signup_keeps_unique_emails (auth := example.plain_auth)
                         example.db example.carol example.now "salt"
                         Hunique))).
Defined.

(** ** The labels in use *)

(** X15.  The categories endpoint answers with the labels of the caller's
    transactions, each once, the empty label left out. *)
Theorem get_categories_labels (db : Session) (current_user : User.t) :
  ∃ categories,
    main.get_categories db current_user = Return categories
    ∧ NoDup categories
    ∧ ∀ c, c ∈ categories ↔
           c ≠ ""
           ∧ ∃ t, t ∈ transactions db
                  ∧ Transaction.user_id t = User.id current_user
                  ∧ Transaction.category t = c.
Proof.
  unfold main.get_categories. eexists. split; [reflexivity|]. split.
  - apply NoDup_filter, NoDup_remove_dups.
  - intros c. rewrite list_elem_of_filter, elem_of_remove_dups.
    rewrite list_elem_of_fmap. split.
    + intros [Hc (t & -> & Ht)]. apply list_elem_of_filter in Ht as [Hu Ht].
      split; [|by exists t].
      intros Hempty. rewrite Hempty in Hc. done.
    + intros [Hc (t & Ht & Hu & <-)]. split.
      * apply String.eqb_neq in Hc. by rewrite Hc.
      * exists t. split; [done|]. by apply list_elem_of_filter.
Qed.

(** ** The window of the monthly summary *)

(** X16.  A negative number of months, whose window starts after the current
    instant, gives the empty summary. *)
Theorem monthly_summary_negative_months `{Interpreter} (db : Session)
    (user_id months : Z) (now : datetime.t) :
  months < 0 → window_representable now months →
  crud.get_monthly_summary db user_id months now = Py.Ok [].
Proof.
  intros Hmonths Hw. rewrite get_monthly_summary_Ok by done.
  rewrite filter_none; [reflexivity|].
  intros t _ (d & _ & Hrange).
  assert (Hday : 0 < datetime.us_per_day) by done.
  nia.
Qed.

(** X17.  The monthly summary returns when the start of its window is a
    datetime and raises otherwise; the only error it raises is the overflow
    of the date subtraction, which the endpoint answers with status 500. *)
Theorem monthly_summary_outcomes `{Interpreter} (db : Session)
    (user_id months : Z) (now : datetime.t) :
  (window_representable now months ↔
   ∃ summary,
     crud.get_monthly_summary db user_id months now = Py.Ok summary)
  ∧ (¬ window_representable now months ↔
     crud.get_monthly_summary db user_id months now
     = Py.Raise Py.OverflowError)
  ∧ (∀ e, crud.get_monthly_summary db user_id months now = Py.Raise e →
          e = Py.OverflowError)
  ∧ ∀ current_user,
      User.id current_user = user_id →
      ¬ window_representable now months →
      status_of (main.get_monthly_summary db (Some months) current_user now)
      = 500.
Proof.
  assert (Hdec : Decision (window_representable now months))
    by (unfold window_representable; apply _).
  destruct Hdec as [Hw|Hw].
  - pose proof (get_monthly_summary_Ok db user_id months now Hw) as Hok.
    split; [|split; [|split]].
    + split; [|done]. intros _. rewrite Hok. by eexists.
    + split; [done|]. by rewrite Hok.
    + intros e. by rewrite Hok.
    + done.
  - pose proof (get_monthly_summary_overflow db user_id months now Hw) as Hr.
    split; [|split; [|split]].
    + split; [done|]. rewrite Hr. by intros [? ?].
    + done.
    + intros e. rewrite Hr. by intros [= <-].
    + intros current_user <- _. unfold main.get_monthly_summary. simpl.
      by rewrite Hr.
Qed.

(** ** The dashboard after a creation *)

(** X18.  A creation that returns adds the new amount, as the table holds
    it, as the last term of the dashboard total of its type, leaves the
    other total alone, and raises the count by one; the dashboards of the
    other users do not change. *)
Theorem create_updates_dashboard `{Interpreter} (db db' : Session)
    (request : schemas.TransactionCreate) (user_id : Z) (now : datetime.t)
    (t : Transaction.t) :
  crud.create_transaction db request user_id now = Py.Ok (t, db') →
  let stats' := crud.get_dashboard_stats db' user_id in
  let added ty :=
    if decide (schemas.tc_transaction_type request = ty)
    then [sql_held (schemas.tc_amount request)] else [] in
  schemas.total_income stats'
  = py_sum (amounts (owned_of_type user_id "income" db) ++ added "income")
  ∧ schemas.total_expenses stats'
    = py_sum (amounts (owned_of_type user_id "expense" db) ++ added "expense")
  ∧ schemas.transaction_count stats'
    = S (schemas.transaction_count (crud.get_dashboard_stats db user_id))
  ∧ ∀ other, other ≠ user_id →
      crud.get_dashboard_stats db' other = crud.get_dashboard_stats db other.
Proof.
  intros Hcreate. pose proof Hcreate as Hinv.
  apply create_transaction_inv in Hinv
    as (-> & _ & Hu & Ha & _ & _ & Hy & _).
  assert (Hamount : Transaction.amount t = sql_held (schemas.tc_amount request)).
  { unfold sql_real in Ha. destruct (Py.is_nan _); [done|]. congruence. }
  assert (Hrows : ∀ ty,
    amounts (owned_of_type user_id ty
               (mkSession (users db) (transactions db ++ [t])))
    = amounts (owned_of_type user_id ty db)
      ++ (if decide (schemas.tc_transaction_type request = ty)
          then [sql_held (schemas.tc_amount request)] else [])).
  { intros ty. unfold owned_of_type, amounts. simpl.
    rewrite filter_app, fmap_app. f_equal. rewrite filter_cons, filter_nil.
    rewrite <- Hy, <- Hamount.
    destruct (decide (Transaction.transaction_type t = ty)).
    - by rewrite decide_True.
    - by rewrite decide_False by tauto. }
  destruct (dashboard_stats_totals (mkSession (users db) (transactions db ++ [t]))
              user_id) as (Hinc & Hexp & _ & _).
  simpl. split; [|split; [|split]].
  - simpl in Hinc. rewrite Hinc. by rewrite Hrows.
  - simpl in Hexp. rewrite Hexp. by rewrite Hrows.
  - rewrite filter_app, length_app, filter_cons_True by done. simpl. lia.
  - intros other Hother. apply get_dashboard_stats_scoped.
    unfold owned_by. simpl. rewrite filter_app, filter_cons_False by congruence.
    by rewrite filter_nil, app_nil_r.
Qed.

Section further_scenario.
#[local] Existing Instances example.cpython example.sqlite.

(** One month ahead of February 2024, in the worked store. *)
Lemma monthly_summary_negative_months_witness :
  crud.get_monthly_summary example.db 1 (-1) example.now = Py.Ok [].
Proof.
  apply monthly_summary_negative_months; [lia|].
  unfold window_representable. vm_compute. repeat split; discriminate.
Defined.

(** A transfer of 25 created in the worked store: Alice has one row more,
    and Bob's dashboard is as it was. *)
Lemma create_updates_dashboard_witness :
  schemas.transaction_count
    (crud.get_dashboard_stats example.transfer25_db 1)
  = S (schemas.transaction_count (crud.get_dashboard_stats example.db 1))
  ∧ crud.get_dashboard_stats example.transfer25_db 2
    = crud.get_dashboard_stats example.db 2.
Proof.
  assert (Hcreate :
    crud.create_transaction example.db example.transfer25 1 example.now
    = Py.Ok (example.transfer25_row, example.transfer25_db))
    by (vm_compute; reflexivity).
  pose proof (create_updates_dashboard example.db example.transfer25_db
                example.transfer25 1 example.now example.transfer25_row
                Hcreate) as (_ & _ & Hcount & Hothers).
  split; [exact Hcount|]. apply Hothers. discriminate.
Defined.

End further_scenario.
